(** * EduSphere API: a shallow embedding of [main.py]

    The handlers of [main.py] are embedded as computations in a small
    state-and-exception monad over the document store.  The runtime pieces
    they call ([hashlib.sha256], [bson.ObjectId], the [pymongo] collection
    operations) are embedded beside them, so that every handler runs on
    concrete requests. *)

From Stdlib Require Import ZArith String Ascii Strings.Byte List Bool Lia.
From Stdlib Require Import Floats.SpecFloat.
From stdpp Require Import base option list strings gmap fin_maps.

Local Open Scope string_scope.
Local Open Scope Z_scope.

(** ** Hexadecimal text *)

Module Hex.

(** The sixteen lowercase digits [hexdigest()] and [str(ObjectId)] print. *)
Definition digit (n : Z) : ascii :=
  match n with
  | 0 => "0" | 1 => "1" | 2 => "2" | 3 => "3" | 4 => "4" | 5 => "5"
  | 6 => "6" | 7 => "7" | 8 => "8" | 9 => "9" | 10 => "a" | 11 => "b"
  | 12 => "c" | 13 => "d" | 14 => "e" | _ => "f"
  end%char.

(** The value of a hexadecimal digit; both cases are read, as
    [bytes.fromhex] does. *)
Definition value_of (c : ascii) : option Z :=
  let n := Z.of_N (N_of_ascii c) in
  if (48 <=? n) && (n <=? 57) then Some (n - 48)
  else if (97 <=? n) && (n <=? 102) then Some (n - 87)
  else if (65 <=? n) && (n <=? 70) then Some (n - 55)
  else None.

Definition of_byte (b : byte) : string :=
  let n := Z.of_N (Byte.to_N b) in
  String (digit (Z.shiftr n 4)) (String (digit (Z.land n 15)) EmptyString).

Definition to_byte (hi lo : ascii) : option byte :=
  match value_of hi, value_of lo with
  | Some h, Some l => Byte.of_N (Z.to_N (16 * h + l))
  | _, _ => None
  end.

Fixpoint of_bytes (l : list byte) : string :=
  match l with
  | [] => EmptyString
  | b :: l' => of_byte b +:+ of_bytes l'
  end.

(** The characters [bytes.fromhex] skips: ASCII tab, line feed, vertical
    tab, form feed, carriage return and space. *)
Definition is_space (c : ascii) : bool :=
  let n := Z.of_N (N_of_ascii c) in
  ((9 <=? n) && (n <=? 13)) || (n =? 32).

(** [bytes.fromhex]: pairs of digits to bytes, with whitespace skipped
    before, between and after the pairs (never inside one); [None] on a
    digit left alone or any other character. *)
Fixpoint to_bytes (s : string) : option (list byte) :=
  match s with
  | EmptyString => Some []
  | String c s' =>
      if is_space c then to_bytes s'
      else
        match s' with
        | String lo s'' =>
            match to_byte c lo, to_bytes s'' with
            | Some b, Some l => Some (b :: l)
            | _, _ => None
            end
        | EmptyString => None
        end
  end.

(** A 32-bit word as eight digits, most significant first. *)
Definition of_word (w : Z) : string :=
  String (digit (Z.land (Z.shiftr w 28) 15))
 (String (digit (Z.land (Z.shiftr w 24) 15))
 (String (digit (Z.land (Z.shiftr w 20) 15))
 (String (digit (Z.land (Z.shiftr w 16) 15))
 (String (digit (Z.land (Z.shiftr w 12) 15))
 (String (digit (Z.land (Z.shiftr w 8) 15))
 (String (digit (Z.land (Z.shiftr w 4) 15))
 (String (digit (Z.land w 15)) EmptyString))))))).

End Hex.

(** ** SHA-256 (FIPS 180-4), the digest behind [hashlib.sha256] *)

Module SHA256.

Definition w32 (x : Z) : Z := Z.land x 0xffffffff.
Definition add32 (a b : Z) : Z := w32 (a + b).
Definition rotr (n x : Z) : Z :=
  w32 (Z.lor (Z.shiftr x n) (Z.shiftl x (32 - n))).
Definition shr (n x : Z) : Z := Z.shiftr x n.
Definition not32 (x : Z) : Z := Z.lxor x 0xffffffff.

Definition Ch (x y z : Z) : Z := Z.lxor (Z.land x y) (Z.land (not32 x) z).
Definition Maj (x y z : Z) : Z :=
  Z.lxor (Z.lxor (Z.land x y) (Z.land x z)) (Z.land y z).
Definition Sigma0 (x : Z) : Z := Z.lxor (Z.lxor (rotr 2 x) (rotr 13 x)) (rotr 22 x).
Definition Sigma1 (x : Z) : Z := Z.lxor (Z.lxor (rotr 6 x) (rotr 11 x)) (rotr 25 x).
Definition sigma0 (x : Z) : Z := Z.lxor (Z.lxor (rotr 7 x) (rotr 18 x)) (shr 3 x).
Definition sigma1 (x : Z) : Z := Z.lxor (Z.lxor (rotr 17 x) (rotr 19 x)) (shr 10 x).

(** The constants are fractional parts of roots of the first primes: a
    word of [K] is the first 32 bits of the fraction of a cube root, a word
    of [H0] of a square root. *)
Definition is_prime (n : nat) : bool :=
  forallb (fun d => negb (Nat.eqb (Nat.modulo n d) 0)) (seq 2 (n - 2)).

Definition primes (count : nat) : list Z :=
  map Z.of_nat (firstn count (List.filter is_prime (seq 2 310))).

(** The integer cube root of [n] below [2 ^ bits], found bit by bit. *)
Fixpoint cube_root (bits : nat) (n r : Z) : Z :=
  match bits with
  | O => r
  | S b =>
      let r' := Z.lor r (Z.shiftl 1 (Z.of_nat b)) in
      cube_root b n (if r' * r' * r' <=? n then r' else r)
  end.

Definition K : list Z :=
  Eval vm_compute in
    map (fun p => w32 (cube_root 40 (Z.shiftl p 96) 0)) (primes 64).

(** The eight working words. *)
Definition state : Type := Z * Z * Z * Z * Z * Z * Z * Z.

Definition H0 : state :=
  Eval vm_compute in
    match map (fun p => w32 (Z.sqrt (Z.shiftl p 64))) (primes 8) with
    | [a; b; c; d; e; f; g; h] => (a, b, c, d, e, f, g, h)
    | _ => (0, 0, 0, 0, 0, 0, 0, 0)
    end.

(** Message padding: a 1 bit, zeros up to 56 mod 64 bytes, then the bit
    length as a 64-bit big-endian number. *)
Definition be_bytes (n : nat) (x : Z) : list Z :=
  map (fun i => Z.land (Z.shiftr x (8 * Z.of_nat i)) 255) (rev (seq 0 n)).

Definition pad (msg : list Z) : list Z :=
  let len := Z.of_nat (length msg) in
  msg ++ [0x80] ++ repeat 0 (Z.to_nat ((55 - len) mod 64)) ++ be_bytes 8 (8 * len).

Fixpoint be_words (l : list Z) : list Z :=
  match l with
  | a :: b :: c :: d :: l' =>
      Z.lor (Z.shiftl a 24) (Z.lor (Z.shiftl b 16) (Z.lor (Z.shiftl c 8) d))
      :: be_words l'
  | _ => []
  end.

Fixpoint blocks (fuel : nat) (ws : list Z) : list (list Z) :=
  match fuel, ws with
  | S fuel', _ :: _ => firstn 16 ws :: blocks fuel' (skipn 16 ws)
  | _, _ => []
  end.

(** The message schedule, built newest word first. *)
Fixpoint schedule (n : nat) (rw : list Z) : list Z :=
  match n with
  | O => rw
  | S n' =>
      let w := add32 (add32 (sigma1 (nth 1 rw 0)) (nth 6 rw 0))
                     (add32 (sigma0 (nth 14 rw 0)) (nth 15 rw 0)) in
      schedule n' (w :: rw)
  end.

Definition round (s : state) (kw : Z * Z) : state :=
  let '(a, b, c, d, e, f, g, h) := s in
  let t1 := add32 (add32 (add32 h (Sigma1 e)) (add32 (Ch e f g) (fst kw))) (snd kw) in
  let t2 := add32 (Sigma0 a) (Maj a b c) in
  (add32 t1 t2, a, b, c, add32 d t1, e, f, g).

Definition compress (s : state) (block : list Z) : state :=
  let W := rev (schedule 48 (rev block)) in
  let '(a, b, c, d, e, f, g, h) := fold_left round (combine K W) s in
  let '(a0, b0, c0, d0, e0, f0, g0, h0) := s in
  (add32 a0 a, add32 b0 b, add32 c0 c, add32 d0 d,
   add32 e0 e, add32 f0 f, add32 g0 g, add32 h0 h).

Definition digest (msg : list byte) : state :=
  let ws := be_words (pad (map (fun b => Z.of_N (Byte.to_N b)) msg)) in
  fold_left compress (blocks (length ws) ws) H0.

Definition hexdigest (msg : list byte) : string :=
  let '(a, b, c, d, e, f, g, h) := digest msg in
  Hex.of_word a +:+ Hex.of_word b +:+ Hex.of_word c +:+ Hex.of_word d +:+
  Hex.of_word e +:+ Hex.of_word f +:+ Hex.of_word g +:+ Hex.of_word h.

End SHA256.

(** [s.encode()]: a Python [str] is held as its UTF-8 text, so encoding
    reads off the bytes. *)
Definition encode (s : string) : list byte := list_byte_of_string s.

(** ** Values and documents *)

(** [bson.ObjectId] holds the bytes of an identifier, twelve when the
    driver generates it.  [ObjectId(s)] on a [str] tests [len(s) == 24]
    and then keeps [bytes.fromhex(s)], raising [InvalidId] when either
    fails; [str(oid)] prints the bytes as lowercase digits. *)
Abbreviation ObjectId := (list byte) (only parsing).

(** The length is counted in bytes of the UTF-8 text: a [str] with a
    character outside ASCII is refused by [fromhex] whatever its length,
    so counting characters gives the same answer. *)
Definition ObjectId_of_str (s : string) : option ObjectId :=
  if bool_decide (String.length s = 24%nat) then Hex.to_bytes s else None.

Definition ObjectId_str (oid : ObjectId) : string := Hex.of_bytes oid.

Definition hex_digit (c : ascii) : Prop := is_Some (Hex.value_of c).

Fixpoint chars (s : string) : list ascii :=
  match s with
  | EmptyString => []
  | String c s' => c :: chars s'
  end.

(** A well-formed identifier: 24 characters, each a hexadecimal digit. *)
Definition well_formed_id (s : string) : Prop :=
  String.length s = 24%nat ∧ Forall hex_digit (chars s).

(** Pairs of hexadecimal digits with whitespace before, between and after
    them. *)
Inductive hex_pairs : list ascii -> Prop :=
| hex_pairs_nil : hex_pairs []
| hex_pairs_space c l :
    Hex.is_space c = true -> hex_pairs l -> hex_pairs (c :: l)
| hex_pairs_pair hi lo l :
    hex_digit hi -> hex_digit lo -> hex_pairs l -> hex_pairs (hi :: lo :: l).

(** What [ObjectId(s)] accepts: 24 characters that are such pairs.  The
    well-formed identifiers are among them; so is a shorter run of pairs
    padded to 24 characters with whitespace. *)
Definition accepted_id (s : string) : Prop :=
  String.length s = 24%nat ∧ hex_pairs (chars s).

(** The field values this program stores: strings, identifiers, the
    [float] price, [None] for an optional field left out, and the list of
    tags. *)
Inductive value : Type :=
| VStr (s : string)
| VOid (oid : ObjectId)
| VFloat (x : spec_float)
| VNone
| VList (l : list string).

#[global] Instance byte_eq_decision : EqDecision byte := Byte.byte_eq_dec.

#[global] Instance spec_float_eq_decision : EqDecision spec_float.
Proof. solve_decision. Defined.

#[global] Instance value_eq_decision : EqDecision value.
Proof. solve_decision. Defined.

(** A Python [dict] with string keys; also a stored document. *)
Abbreviation pydict := (gmap string value) (only parsing).

(** A query or [$set] document: the literal's [key: value] pairs. *)
Abbreviation fields := (list (string * value)) (only parsing).

(** ** The store and the monad of handlers *)

Inductive db_call : Type :=
| Call_find_one (c : string) (flt : fields)
| Call_find (c : string) (flt : fields) (limit : Z)
| Call_insert_one (c : string) (d : pydict)
| Call_update_one (c : string) (flt : fields) (upd : fields).

(** The database [db]: its collections by name, each in natural order,
    and the calls made to it so far (newest last). *)
Record world : Type := World {
  db : gmap string (list pydict);
  calls : list db_call
}.

Inductive exn : Type :=
| HTTPException (status_code : Z) (detail : string)
| RequestValidationError
| KeyError (key : string)
| InvalidId
| DuplicateKeyError.

Inductive result (A : Type) : Type :=
| Ok (a : A)
| Raise (e : exn).
Arguments Ok {A} a.
Arguments Raise {A} e.

#[global] Instance db_call_eq_decision : EqDecision db_call.
Proof. solve_decision. Defined.

#[global] Instance world_eq_decision : EqDecision world.
Proof. solve_decision. Defined.

#[global] Instance exn_eq_decision : EqDecision exn.
Proof. solve_decision. Defined.

#[global] Instance result_eq_decision `{EqDecision A} : EqDecision (result A).
Proof. solve_decision. Defined.

Definition M (A : Type) : Type := world -> result A * world.

Definition ret {A} (a : A) : M A := fun w => (Ok a, w).
Definition raise {A} (e : exn) : M A := fun w => (Raise e, w).
Definition bind {A B} (m : M A) (k : A -> M B) : M B :=
  fun w =>
    match m w with
    | (Ok a, w') => k a w'
    | (Raise e, w') => (Raise e, w')
    end.

Notation "x <- m ;; k" := (bind m (fun x => k))
  (at level 100, m at next level, right associativity).

Fixpoint mapM {A B} (f : A -> M B) (l : list A) : M (list B) :=
  match l with
  | [] => ret []
  | a :: l' => b <- f a ;; bs <- mapM f l' ;; ret (b :: bs)
  end.

(** *** [pymongo] collections *)

Definition coll (w : world) (c : string) : list pydict := default [] (db w !! c).

Definition log (call : db_call) (w : world) : world :=
  World (db w) (calls w ++ [call]).

Definition set_coll (c : string) (l : list pydict) (w : world) : world :=
  World (<[c := l]> (db w)) (calls w).

(** A document matches a query when every queried field holds the queried
    value. *)
Definition matches (flt : fields) (d : pydict) : Prop :=
  Forall (fun kv => d !! kv.1 = Some kv.2) flt.

#[global] Instance matches_dec flt d : Decision (matches flt d).
Proof. unfold matches. apply _. Defined.

Definition first_match (flt : fields) (l : list pydict) : option pydict :=
  snd <$> list_find (matches flt) l.

(** [collection.find_one(flt)]: the first matching document, or [None]. *)
Definition find_one (c : string) (flt : fields) : M (option pydict) :=
  fun w => (Ok (first_match flt (coll w c)), log (Call_find_one c flt) w).

(** [collection.insert_one(d).inserted_id].  The driver gives a document
    without [_id] the identifier [gen] it generates; the store keeps [_id]
    unique within a collection. *)
Definition insert_one (gen : ObjectId) (c : string) (d : pydict) : M value :=
  fun w =>
    let w1 := log (Call_insert_one c d) w in
    let _id := default (VOid gen) (d !! "_id") in
    if decide (Exists (fun x => x !! "_id" = Some _id) (coll w c))
    then (Raise DuplicateKeyError, w1)
    else (Ok _id, set_coll c (coll w c ++ [<["_id" := _id]> d]) w1).

Definition apply_set (upd : fields) (d : pydict) : pydict :=
  fold_left (fun acc kv => <[kv.1 := kv.2]> acc) upd d.

(** [collection.update_one(flt, {"$set": upd})]: the first matching
    document gets the fields of [upd]. *)
Definition update_one (c : string) (flt upd : fields) : M unit :=
  fun w =>
    let w1 := log (Call_update_one c flt upd) w in
    match list_find (matches flt) (coll w c) with
    | Some (i, d) => (Ok tt, set_coll c (<[i := apply_set upd d]> (coll w c)) w1)
    | None => (Ok tt, w1)
    end.

(** *** Python truth values and item access *)

(** [not doc] for the result of [find_one]: true of [None] and of the
    empty [dict]. *)
Definition not_doc (doc : option pydict) : bool :=
  match doc with
  | None => true
  | Some d => bool_decide (d = ∅)
  end.

(** [not x_token] for an optional header: true of [None] and of the empty
    string. *)
Definition not_str (s : option string) : bool :=
  match s with
  | None => true
  | Some t => bool_decide (t = "")
  end.

(** [d[k]] *)
Definition getitem (d : pydict) (k : string) : M value :=
  match d !! k with
  | Some v => ret v
  | None => raise (KeyError k)
  end.

(** ** Request models *)

Module RegisterRequest.
Record t : Type := Build { name : string; email : string; password : string }.
End RegisterRequest.

Module LoginRequest.
Record t : Type := Build { email : string; password : string }.
End LoginRequest.

Definition opt_value (o : option string) : value :=
  match o with
  | Some s => VStr s
  | None => VNone
  end.

(** [Field(..., ge=0)]: the value must satisfy [price >= 0]. *)
Definition ge_0 (x : spec_float) : bool := SFleb (S754_zero false) x.

(** The prices [0.0] and [-1.0] as binary64 numbers. *)
Definition float_zero : spec_float := S754_zero false.
Definition float_minus_one : spec_float := S754_finite true 4503599627370496 (-52).

Module Course.
Record t : Type := Build {
  title : string;
  description : string;
  price : spec_float;
  thumbnail_url : option string;
  video_url : option string;
  level : option string;
  tags : list string
}.

Definition validate (c : t) : bool := ge_0 (price c).

Definition model_dump (c : t) : pydict :=
  {[ "title" := VStr (title c);
     "description" := VStr (description c);
     "price" := VFloat (price c);
     "thumbnail_url" := opt_value (thumbnail_url c);
     "video_url" := opt_value (video_url c);
     "level" := opt_value (level c);
     "tags" := VList (tags c) ]}.
End Course.

Module Product.
Record t : Type := Build {
  title : string;
  description : string;
  price : spec_float;
  image_url : option string;
  file_url : option string;
  category : option string
}.

Definition validate (p : t) : bool := ge_0 (price p).

Definition model_dump (p : t) : pydict :=
  {[ "title" := VStr (title p);
     "description" := VStr (description p);
     "price" := VFloat (price p);
     "image_url" := opt_value (image_url p);
     "file_url" := opt_value (file_url p);
     "category" := opt_value (category p) ]}.
End Product.

Module ContactMessage.
Record t : Type := Build {
  name : string;
  email : string;
  subject : string;
  message : string
}.

Definition model_dump (m : t) : pydict :=
  {[ "name" := VStr (name m);
     "email" := VStr (email m);
     "subject" := VStr (subject m);
     "message" := VStr (message m) ]}.
End ContactMessage.

(** The body of a successful [/auth/login] response. *)
Record LoginOut : Type := { token : string; user : pydict }.

#[global] Instance LoginOut_eq_decision : EqDecision LoginOut.
Proof. solve_decision. Defined.

(** ** The handlers of [main.py] *)

Definition hash_password (password : string) : string :=
  SHA256.hexdigest (encode password).

Definition to_object_id (id_str : string) : M ObjectId :=
  match ObjectId_of_str id_str with
  | Some oid => ret oid
  | None => raise (HTTPException 400 "Invalid id")
  end.

(** [ObjectId(s)] outside a [try]: the [InvalidId] error escapes. *)
Definition ObjectId_new (s : string) : M ObjectId :=
  match ObjectId_of_str s with
  | Some oid => ret oid
  | None => raise InvalidId
  end.

Section Handlers.

(** Python's [str] of a value that is neither a [str] nor an [ObjectId]
    (a [float], [None], a [list]).  The handlers apply [str] to [_id]
    values only, so the exact text is left open. *)
Variable py_repr : value -> string.

Definition py_str (v : value) : string :=
  match v with
  | VStr s => s
  | VOid oid => ObjectId_str oid
  | _ => py_repr v
  end.

Definition serialize (doc : option pydict) : M (option pydict) :=
  match doc with
  | None => ret None
  | Some d =>
      if bool_decide (d = ∅) then ret (Some d)
      else
        _id <- getitem d "_id" ;;
        ret (Some (<["id" := VStr (py_str _id)]> (delete "_id" d)))
  end.

(** Modelled from the spec: [create_document] of the absent [database]
    module, the store adapter's [insert(collection, document) -> id]: the
    model's fields are inserted as one document and the generated
    identifier comes back in its string form. *)
Definition create_document (gen : ObjectId) (c : string) (data : pydict) : M string :=
  _id <- insert_one gen c data ;;
  ret (py_str _id).

(** Modelled from the spec: [get_documents] of the absent [database]
    module, the store adapter's [find(collection, filter, limit)]: up to
    [limit] matching documents in the store's order. *)
Definition get_documents (c : string) (flt : fields) (limit : Z) : M (list pydict) :=
  fun w => (Ok (take (Z.to_nat limit) (filter (matches flt) (coll w c))),
            log (Call_find c flt limit) w).

(** *** Auth *)

Definition register (gen : ObjectId) (payload : RegisterRequest.t) : M pydict :=
  existing <- find_one "user" [("email", VStr (RegisterRequest.email payload))] ;;
  if negb (not_doc existing)
  then raise (HTTPException 400 "Email already registered")
  else
    let user_doc : pydict :=
      {[ "name" := VStr (RegisterRequest.name payload);
         "email" := VStr (RegisterRequest.email payload);
         "password_hash" := VStr (hash_password (RegisterRequest.password payload)) ]} in
    _id <- insert_one gen "user" user_doc ;;
    ret ({[ "id" := VStr (py_str _id);
            "name" := VStr (RegisterRequest.name payload);
            "email" := VStr (RegisterRequest.email payload) ]} : pydict).

(** In [login] and [me], [user] is the [dict] behind the result of
    [find_one]; it is read only after [not user] was found false. *)
Definition login (payload : LoginRequest.t) : M LoginOut :=
  found <- find_one "user" [("email", VStr (LoginRequest.email payload))] ;;
  let user : pydict := default ∅ found in
  if not_doc found
     || negb (bool_decide (user !! "password_hash"
                = Some (VStr (hash_password (LoginRequest.password payload)))))
  then raise (HTTPException 401 "Invalid credentials")
  else
    _id <- getitem user "_id" ;;
    let token := SHA256.hexdigest (encode (py_str _id)) in
    _id' <- getitem user "_id" ;;
    _ <- update_one "user" [("_id", _id')] [("api_token", VStr token)] ;;
    _id'' <- getitem user "_id" ;;
    name <- getitem user "name" ;;
    email <- getitem user "email" ;;
    ret {| token := token;
           user := {[ "id" := VStr (py_str _id''); "name" := name; "email" := email ]} |}.

Definition me (x_token : option string) : M pydict :=
  if not_str x_token then raise (HTTPException 401 "Missing token")
  else
    found <- find_one "user" [("api_token", VStr (default "" x_token))] ;;
    let user : pydict := default ∅ found in
    if not_doc found then raise (HTTPException 401 "Invalid token")
    else
      _id <- getitem user "_id" ;;
      name <- getitem user "name" ;;
      email <- getitem user "email" ;;
      ret ({[ "id" := VStr (py_str _id); "name" := name; "email" := email ]} : pydict).

(** *** Courses *)

(** Python's [a or b] on truth values: [b] runs only when [a] is false. *)
Definition or_ (a : bool) (b : M bool) : M bool :=
  if a then ret true else b.

Definition list_courses (limit : Z) : M (list (option pydict)) :=
  docs <- get_documents "course" [] limit ;;
  mapM (fun d => serialize (Some d)) docs.

Definition create_course (gen : ObjectId) (course : Course.t)
    (x_token : option string) : M (option pydict) :=
  denied <- or_ (not_str x_token)
              (found <- find_one "user" [("api_token", VStr (default "" x_token))] ;;
               ret (not_doc found)) ;;
  if denied then raise (HTTPException 401 "Unauthorized")
  else
    _id <- create_document gen "course" (Course.model_dump course) ;;
    oid <- ObjectId_new _id ;;
    doc <- find_one "course" [("_id", VOid oid)] ;;
    serialize doc.

Definition get_course (course_id : string) : M (option pydict) :=
  oid <- to_object_id course_id ;;
  doc <- find_one "course" [("_id", VOid oid)] ;;
  if not_doc doc then raise (HTTPException 404 "Course not found")
  else serialize doc.

(** *** Products *)

Definition list_products (limit : Z) : M (list (option pydict)) :=
  docs <- get_documents "product" [] limit ;;
  mapM (fun d => serialize (Some d)) docs.

Definition create_product (gen : ObjectId) (product : Product.t)
    (x_token : option string) : M (option pydict) :=
  denied <- or_ (not_str x_token)
              (found <- find_one "user" [("api_token", VStr (default "" x_token))] ;;
               ret (not_doc found)) ;;
  if denied then raise (HTTPException 401 "Unauthorized")
  else
    _id <- create_document gen "product" (Product.model_dump product) ;;
    oid <- ObjectId_new _id ;;
    doc <- find_one "product" [("_id", VOid oid)] ;;
    serialize doc.

Definition get_product (product_id : string) : M (option pydict) :=
  oid <- to_object_id product_id ;;
  doc <- find_one "product" [("_id", VOid oid)] ;;
  if not_doc doc then raise (HTTPException 404 "Product not found")
  else serialize doc.

(** *** Contact *)

Definition send_contact (gen : ObjectId) (msg : ContactMessage.t) : M pydict :=
  _id <- create_document gen "contactmessage" (ContactMessage.model_dump msg) ;;
  ret ({[ "status" := VStr "received"; "id" := VStr _id ]} : pydict).

(** *** The creation routes with their body

    FastAPI builds the declared model from the request body before it
    calls the handler, and answers with a validation error when the
    model's constraints reject the body. *)

Definition post_courses (gen : ObjectId) (body : Course.t)
    (x_token : option string) : M (option pydict) :=
  if Course.validate body then create_course gen body x_token
  else raise RequestValidationError.

Definition post_products (gen : ObjectId) (body : Product.t)
    (x_token : option string) : M (option pydict) :=
  if Product.validate body then create_product gen body x_token
  else raise RequestValidationError.

(** *** The shape the two resources share

    [/courses] and [/products] differ in the collection, the model and
    the 404 text only; the lemmas below are proved once on these. *)

Definition list_entities (c : string) (limit : Z) : M (list (option pydict)) :=
  docs <- get_documents c [] limit ;;
  mapM (fun d => serialize (Some d)) docs.

Definition create_entity (c : string) (gen : ObjectId) (data : pydict)
    (x_token : option string) : M (option pydict) :=
  denied <- or_ (not_str x_token)
              (found <- find_one "user" [("api_token", VStr (default "" x_token))] ;;
               ret (not_doc found)) ;;
  if denied then raise (HTTPException 401 "Unauthorized")
  else
    _id <- create_document gen c data ;;
    oid <- ObjectId_new _id ;;
    doc <- find_one c [("_id", VOid oid)] ;;
    serialize doc.

Definition get_entity (c detail id_str : string) : M (option pydict) :=
  oid <- to_object_id id_str ;;
  doc <- find_one c [("_id", VOid oid)] ;;
  if not_doc doc then raise (HTTPException 404 detail)
  else serialize doc.

End Handlers.

(** ** Store invariants and the predicates of the claims *)

(** No two documents of the list agree on field [k] (the store's guarantee
    for [_id]; what [register] maintains for [email]). *)
Definition unique_on (k : string) (l : list pydict) : Prop :=
  NoDup ((fun d : pydict => d !! k) <$> l).

(** Every document of the list has the fields [ks]. *)
Definition have_keys (ks : list string) (l : list pydict) : Prop :=
  Forall (fun d : pydict => Forall (fun k => is_Some (d !! k)) ks) l.

(** The token is absent, or no user document holds it. *)
Definition token_unknown (x_token : option string) (w : world) : Prop :=
  match x_token with
  | None => True
  | Some tok =>
      Forall (fun d : pydict => d !! "api_token" ≠ Some (VStr tok)) (coll w "user")
  end.

(** The token is not empty and some user document holds it. *)
Definition token_known (tok : string) (w : world) : Prop :=
  tok ≠ "" ∧
  Exists (fun d : pydict => d !! "api_token" = Some (VStr tok)) (coll w "user").

(** The driver's identifier is twelve bytes long and new to the
    collection. *)
Definition fresh_id (gen : ObjectId) (l : list pydict) : Prop :=
  length gen = 12%nat ∧
  Forall (fun d : pydict => d !! "_id" ≠ Some (VOid gen)) l.

Definition invalid_credentials : exn := HTTPException 401 "Invalid credentials".

(** The document [register] stores for a payload. *)
Definition user_doc (gen : ObjectId) (payload : RegisterRequest.t) : pydict :=
  <["_id" := VOid gen]>
    {[ "name" := VStr (RegisterRequest.name payload);
       "email" := VStr (RegisterRequest.email payload);
       "password_hash" := VStr (hash_password (RegisterRequest.password payload)) ]}.

(** The public projection [register] returns. *)
Definition user_public (gen : ObjectId) (payload : RegisterRequest.t) : pydict :=
  {[ "id" := VStr (ObjectId_str gen);
     "name" := VStr (RegisterRequest.name payload);
     "email" := VStr (RegisterRequest.email payload) ]}.

Definition invalid_token : exn := HTTPException 401 "Invalid token".

(** Two documents that agree except, possibly, on [api_token]. *)
Definition same_but_token (d1 d : pydict) : Prop :=
  ∀ k, k ≠ "api_token" → d1 !! k = d !! k.


(** The document a creation handler stores for the model's fields. *)
Definition stored_doc (gen : ObjectId) (data : pydict) : pydict :=
  <["_id" := VOid gen]> data.

Section Predicates.

Variable py_repr : value -> string.

(** The token [login] issues for an identifier. *)
Definition issue_token (v : value) : string :=
  SHA256.hexdigest (encode (py_str py_repr v)).

(** The token [login] issues for a stored document. *)
Definition issued (d : pydict) : string :=
  issue_token (default VNone (d !! "_id")).

(** Every stored token is the one issued for its document, and no two
    documents are issued the same token (no two identifiers of the store
    collide under the digest). *)
Definition tokens_consistent (l : list pydict) : Prop :=
  Forall (fun d : pydict => d !! "api_token" = None
                            ∨ d !! "api_token" = Some (VStr (issued d))) l
  ∧ NoDup (issued <$> l).

(** The user collection as the handlers keep it: every document has its
    identifier, name and email, no two share an identifier or an email,
    and a stored token is the one issued for its document. *)
Definition users_ok (l : list pydict) : Prop :=
  have_keys ["_id"; "name"; "email"] l
  ∧ unique_on "_id" l
  ∧ unique_on "email" l
  ∧ Forall (fun d : pydict => d !! "api_token" = None
                              ∨ d !! "api_token" = Some (VStr (issued d))) l.

(** The token issued for the identifier [gen] is issued for no document
    of [l]: the digest of [gen] is the digest of no stored identifier. *)
Definition digest_new (gen : ObjectId) (l : list pydict) : Prop :=
  Forall (fun d : pydict => issued d ≠ issue_token (VOid gen)) l.

(** The stores the handlers build: the empty store, and the store any
    handler leaves when called on such a store, whatever the request and
    whether it returns or raises.  The identifier the driver generates
    for a registration is one whose digest is new to the user
    collection. *)
Inductive built : world -> Prop :=
| built_empty : built (World ∅ [])
| built_register gen payload w :
    built w → digest_new gen (coll w "user") →
    built (snd (register py_repr gen payload w))
| built_login payload w :
    built w → built (snd (login py_repr payload w))
| built_me x_token w :
    built w → built (snd (me py_repr x_token w))
| built_list_courses limit w :
    built w → built (snd (list_courses py_repr limit w))
| built_create_course gen course x_token w :
    built w → built (snd (create_course py_repr gen course x_token w))
| built_get_course course_id w :
    built w → built (snd (get_course py_repr course_id w))
| built_list_products limit w :
    built w → built (snd (list_products py_repr limit w))
| built_create_product gen product x_token w :
    built w → built (snd (create_product py_repr gen product x_token w))
| built_get_product product_id w :
    built w → built (snd (get_product py_repr product_id w))
| built_send_contact gen msg w :
    built w → built (snd (send_contact py_repr gen msg w)).

Definition serialized (d : pydict) : pydict :=
  <["id" := VStr (py_str py_repr (default VNone (d !! "_id")))]> (delete "_id" d).

(** [r] is the serialized form of a document of [stored]: the document's
    [_id] printed under ["id"], and no ["_id"] left. *)
Definition carries_id (stored : list pydict) (r : option pydict) : Prop :=
  ∃ (d0 : pydict) v (d : pydict),
    d0 ∈ stored ∧ d0 !! "_id" = Some v ∧ r = Some d
    ∧ d = <["id" := VStr (py_str py_repr v)]> (delete "_id" d0)
    ∧ d !! "id" = Some (VStr (py_str py_repr v)) ∧ d !! "_id" = None.

End Predicates.

(** C1 as the claim states it: the second login issues another token, the
    first token then fails [me] and the second passes. *)
Definition second_login_invalidates (py_repr : value -> string)
    (payload : LoginRequest.t) (w : world) : Prop :=
  ∀ out1 w1 out2 w2,
    login py_repr payload w = (Ok out1, w1) →
    login py_repr payload w1 = (Ok out2, w2) →
    token out2 ≠ token out1
    ∧ (∀ r w', me py_repr (Some (token out1)) w2 ≠ (Ok r, w'))
    ∧ (∃ r w', me py_repr (Some (token out2)) w2 = (Ok r, w')).

(** C7 as the claim states it, in its first part: a string that is not a
    well-formed identifier is answered 400 "Invalid id". *)
Definition malformed_id_is_invalid (py_repr : value -> string)
    (w : world) (s : string) : Prop :=
  ¬ well_formed_id s →
  fst (get_course py_repr s w) = Raise (HTTPException 400 "Invalid id")
  ∧ fst (get_product py_repr s w) = Raise (HTTPException 400 "Invalid id").

(** C4 as the claim states it, in its first half, of any store: the
    token a successful [login] returns passes [me], which returns the
    user [login] returned. *)
Definition login_token_returns_user (py_repr : value -> string)
    (payload : LoginRequest.t) (w : world) : Prop :=
  ∀ out w',
    login py_repr payload w = (Ok out, w') →
    fst (me py_repr (Some (token out)) w') = Ok (user out).

(** C4 as the claim states it, in its second half: a string that is no
    user's stored [api_token] is answered "Invalid token". *)
Definition unknown_string_invalid_token (py_repr : value -> string)
    (w : world) (tok : string) : Prop :=
  Forall (fun d : pydict => d !! "api_token" ≠ Some (VStr tok)) (coll w "user") →
  fst (me py_repr (Some tok) w) = Raise (HTTPException 401 "Invalid token").

#[global] Instance hex_digit_dec c : Decision (hex_digit c).
Proof. unfold hex_digit. apply _. Defined.

#[global] Instance well_formed_id_dec s : Decision (well_formed_id s).
Proof. unfold well_formed_id. apply _. Defined.

#[global] Instance unique_on_dec k l : Decision (unique_on k l).
Proof. unfold unique_on. apply _. Defined.

#[global] Instance have_keys_dec ks l : Decision (have_keys ks l).
Proof. unfold have_keys. apply _. Defined.

#[global] Instance token_unknown_dec x_token w : Decision (token_unknown x_token w).
Proof. destruct x_token; simpl; apply _. Defined.

#[global] Instance token_known_dec tok w : Decision (token_known tok w).
Proof. unfold token_known. apply _. Defined.

#[global] Instance fresh_id_dec gen l : Decision (fresh_id gen l).
Proof. unfold fresh_id. apply _. Defined.

#[global] Instance users_ok_dec py_repr l : Decision (users_ok py_repr l).
Proof. unfold users_ok. apply _. Defined.

#[global] Instance tokens_consistent_dec py_repr l :
  Decision (tokens_consistent py_repr l).
Proof. unfold tokens_consistent. apply _. Defined.

#[global] Instance digest_new_dec py_repr gen l : Decision (digest_new py_repr gen l).
Proof. unfold digest_new. apply _. Defined.

(** ** Sample runs *)

Module Sample.

Definition repr (_ : value) : string := "None".

Definition w0 : world := World ∅ [].

Definition oid1 : ObjectId :=
  [x00; x00; x00; x00; x00; x00; x00; x00; x00; x00; x00; x01]%byte.
Definition oid2 : ObjectId :=
  [x65; x4a; xbc; x01; x9f; x00; x00; x00; x00; x00; x00; x02]%byte.

Definition oid3 : ObjectId :=
  [x65; x4a; xbc; x01; x9f; x00; x00; x00; x00; x00; x00; x03]%byte.

Definition bob := RegisterRequest.Build "Bob" "bob@example.com" "correct horse".
Definition alice := RegisterRequest.Build "Alice" "alice@example.com" "hunter2".
Definition alice_login := LoginRequest.Build "alice@example.com" "hunter2".

Definition alice_token : string :=
  "dd6eda34d13e0eb25636eb5642192e8d72b05147f23270f982dd136ffe8d9193".
Definition alice_out : LoginOut :=
  {| token := alice_token;
     user := {[ "id" := VStr "000000000000000000000001";
                "name" := VStr "Alice";
                "email" := VStr "alice@example.com" ]} |}.


Definition rocq_course (price : spec_float) : Course.t :=
  Course.Build "Proofs" "Proving programs" price None None (Some "Beginner") ["rocq"].
Definition rocq_product (price : spec_float) : Product.t :=
  Product.Build "Notes" "Lecture notes" price None None (Some "book").

(** Bob and Alice register; Alice logs in and creates a free course. *)
Definition w1 : world :=
  snd (register repr oid1 alice (snd (register repr oid3 bob w0))).
Definition w2 : world := snd (login repr alice_login w1).
Definition w3 : world :=
  snd (create_course repr oid2 (rocq_course float_zero) (Some alice_token) w2).

Definition rocq_course_out : pydict :=
  <["id" := VStr "654abc019f00000000000002"]> (Course.model_dump (rocq_course float_zero)).
Definition rocq_product_out : pydict :=
  <["id" := VStr "654abc019f00000000000002"]> (Product.model_dump (rocq_product float_zero)).

(** Alice logs in a second time. *)
Definition w2' : world := snd (login repr alice_login w2).

(** Eight pairs of digits, each followed by a space: 24 characters. *)
Definition spaced_id : string := "00 00 00 00 00 00 00 00 ".
Definition oid_spaced : ObjectId := [x00; x00; x00; x00; x00; x00; x00; x00]%byte.

(** A store no handler builds: Bob's document, stored before Alice's,
    holds the token issued for Alice's identifier. *)
Definition w_shared : world :=
  World {[ "user" := [<["api_token" := VStr alice_token]> (user_doc oid3 bob);
                      user_doc oid1 alice] ]} [].
Definition bob_public : pydict :=
  {[ "id" := VStr "654abc019f00000000000003";
     "name" := VStr "Bob";
     "email" := VStr "bob@example.com" ]}.


(** A user document without a name, as [register] never writes one. *)
Definition nameless : pydict :=
  {[ "_id" := VOid oid2;
     "email" := VStr "dave@example.com";
     "password_hash" := VStr (hash_password "pw") ]}.
Definition w_nameless : world := World {[ "user" := [nameless] ]} [].
Definition dave_login := LoginRequest.Build "dave@example.com" "pw".

Definition hello := ContactMessage.Build "Alice" "alice@example.com" "Hello" "Hi there".

(** A course document that already has an ["id"] field. *)
Definition with_id : pydict :=
  {[ "_id" := VOid oid2; "id" := VStr "old"; "title" := VStr "Proofs" ]}.

End Sample.

(** * Proofs *)

(** ** The digest on the standard test vectors *)

Example sha256_abc :
  SHA256.hexdigest (encode "abc")
  = "ba7816bf8f01cfea414140de5dae2223b00361a396177a9cb410ff61f20015ad".
Proof. vm_compute. reflexivity. Qed.

Example sha256_empty :
  SHA256.hexdigest (encode "")
  = "e3b0c44298fc1c149afbf4c8996fb92427ae41e4649b934ca495991b7852b855".
Proof. vm_compute. reflexivity. Qed.

Example sha256_two_blocks :
  SHA256.hexdigest (encode "aaaaaaaaaaaaaaaaaaaaaaaaaaaaaaaaaaaaaaaaaaaaaaaaaaaaaaaa")
  = "b35439a4ac6f0948b6d6f9e3c6af0f5f590ce20f1bde7090ef7970686ec6738a".
Proof. vm_compute. reflexivity. Qed.

(** ** Facts about the store operations *)

Lemma matches_one k v (d : pydict) : matches [(k, v)] d ↔ d !! k = Some v.
Proof.
  unfold matches. rewrite Forall_cons, Forall_nil. simpl. tauto.
Qed.

Lemma first_match_Some flt l d :
  first_match flt l = Some d ↔
  ∃ i, l !! i = Some d ∧ matches flt d ∧
       ∀ j y, l !! j = Some y → (j < i)%nat → ¬ matches flt y.
Proof.
  unfold first_match. rewrite fmap_Some. split.
  - intros [[i x] [H ->]]. apply list_find_Some in H. eauto.
  - intros [i H]. exists (i, d). split; [|done]. by apply list_find_Some.
Qed.

Lemma first_match_None flt l :
  first_match flt l = None ↔ Forall (fun d => ¬ matches flt d) l.
Proof. unfold first_match. rewrite fmap_None. apply list_find_None. Qed.

Lemma first_match_elem_of flt l d :
  first_match flt l = Some d → d ∈ l ∧ matches flt d.
Proof.
  intros (i & Hi & Hm & _)%first_match_Some.
  split; [by eapply list_elem_of_lookup_2|done].
Qed.

Lemma first_match_is_Some flt l d :
  d ∈ l → matches flt d → is_Some (first_match flt l).
Proof.
  intros Hd Hm. unfold first_match. apply fmap_is_Some.
  by eapply list_find_elem_of.
Qed.

(** A document found through a one-field query is not the empty [dict]. *)
Lemma not_doc_first_match k v l :
  not_doc (first_match [(k, v)] l) = true ↔ first_match [(k, v)] l = None.
Proof.
  destruct (first_match [(k, v)] l) as [d|] eqn:E; simpl; [|done].
  apply first_match_elem_of in E as [_ Hm%matches_one].
  split; [|done]. intros Hd%bool_decide_eq_true. subst d.
  by rewrite lookup_empty in Hm.
Qed.

Lemma first_match_one_None k v l :
  first_match [(k, v)] l = None ↔ ∀ d, d ∈ l → d !! k ≠ Some v.
Proof.
  rewrite first_match_None, Forall_forall.
  split; intros H d Hd; specialize (H d Hd); by rewrite matches_one in *.
Qed.

(** Under uniqueness of [k], a one-field query finds the document that
    holds the value. *)
Lemma first_match_unique k v l d :
  unique_on k l → d ∈ l → d !! k = Some v → first_match [(k, v)] l = Some d.
Proof.
  intros Hu Hd Hk.
  destruct (first_match_is_Some [(k, v)] l d Hd) as [d' E]; [by apply matches_one|].
  rewrite E. f_equal.
  apply first_match_Some in E as (i' & Hi' & Hm%matches_one & _).
  apply list_elem_of_lookup in Hd as [i Hi].
  assert (i' = i) as ->; [|congruence].
  eapply (NoDup_lookup _ _ _ (Some v) Hu); rewrite list_lookup_fmap.
  - by rewrite Hi'; simpl; rewrite Hm.
  - by rewrite Hi; simpl; rewrite Hk.
Qed.

Lemma coll_log call w c : coll (log call w) c = coll w c.
Proof. reflexivity. Qed.

Lemma coll_set_coll_eq c l w : coll (set_coll c l w) c = l.
Proof. unfold coll, set_coll. simpl. by rewrite lookup_insert_eq. Qed.

Lemma coll_set_coll_ne c c' l w : c ≠ c' → coll (set_coll c l w) c' = coll w c'.
Proof. intros. unfold coll, set_coll. simpl. by rewrite lookup_insert_ne. Qed.

(** ** Facts about identifiers and digests *)

Lemma value_of_bound c h : Hex.value_of c = Some h → 0 ≤ h ≤ 15.
Proof.
  unfold Hex.value_of. intros H.
  repeat match type of H with
         | (if ?b then _ else _) = _ => destruct b eqn:?
         end; simplify_eq; lia.
Qed.

Lemma to_byte_is_Some hi lo :
  is_Some (Hex.to_byte hi lo) ↔ hex_digit hi ∧ hex_digit lo.
Proof.
  unfold Hex.to_byte, hex_digit.
  destruct (Hex.value_of hi) as [h|] eqn:Eh; [|split; [intros []|intros [[] _]]; done].
  destruct (Hex.value_of lo) as [l|] eqn:El; [|split; [intros []|intros [_ []]]; done].
  apply value_of_bound in Eh, El.
  split; [eauto|]. intros _.
  destruct (Byte.of_N (Z.to_N (16 * h + l))) eqn:E; [eauto|].
  apply Byte.of_N_None_iff in E. lia.
Qed.

Lemma hex_digit_not_space c : hex_digit c → Hex.is_space c = false.
Proof.
  destruct c as [[] [] [] [] [] [] [] []]; vm_compute; try done;
    by intros [? ?].
Qed.

Lemma chars_inj s1 s2 : chars s1 = chars s2 → s1 = s2.
Proof.
  revert s2. induction s1 as [|c s1 IH]; intros [|c2 s2] H; simplify_eq/=;
    [done|]. f_equal. by apply IH.
Qed.

Lemma to_bytes_hex_pairs_1 n s :
  (String.length s ≤ n)%nat → is_Some (Hex.to_bytes s) → hex_pairs (chars s).
Proof.
  revert s. induction n as [|n IH]; intros s Hlen.
  { destruct s; [|simpl in Hlen; lia]. intros _. constructor. }
  destruct s as [|c s]; [intros _; constructor|].
  simpl in Hlen. cbn [Hex.to_bytes chars].
  destruct (Hex.is_space c) eqn:Hc.
  { intros H. apply hex_pairs_space; [done|]. apply IH; [lia|done]. }
  destruct s as [|lo s]; [by intros [? ?]|]. simpl in Hlen.
  intros H. cbn [chars].
  assert (is_Some (Hex.to_byte c lo) ∧ is_Some (Hex.to_bytes s)) as [Hb Hs].
  { destruct (Hex.to_byte c lo), (Hex.to_bytes s); rewrite !is_Some_alt in *; tauto. }
  apply to_byte_is_Some in Hb as [? ?].
  apply hex_pairs_pair; [done..|]. apply IH; [lia|done].
Qed.

Lemma to_bytes_hex_pairs_2 l :
  hex_pairs l → ∀ s, chars s = l → is_Some (Hex.to_bytes s).
Proof.
  induction 1 as [|c l Hc _ IH|hi lo l Hhi Hlo _ IH]; intros s Hs.
  - destruct s; [|done]. by eexists.
  - destruct s as [|c' s]; simplify_eq/=. rewrite Hc. by apply IH.
  - destruct s as [|hi' [|lo' s]]; simplify_eq/=.
    rewrite (hex_digit_not_space _ Hhi).
    destruct (proj2 (to_byte_is_Some hi lo) (conj Hhi Hlo)) as [b ->].
    destruct (IH s eq_refl) as [bs ->]. by eexists.
Qed.

(** [bytes.fromhex] accepts exactly the pairs of digits with whitespace
    around them. *)
Lemma to_bytes_is_Some s : is_Some (Hex.to_bytes s) ↔ hex_pairs (chars s).
Proof.
  split.
  - by apply (to_bytes_hex_pairs_1 (String.length s)).
  - intros H. by apply (to_bytes_hex_pairs_2 (chars s)).
Qed.

(** [ObjectId(s)] accepts exactly the accepted identifiers. *)
Lemma ObjectId_of_str_is_Some s :
  is_Some (ObjectId_of_str s) ↔ accepted_id s.
Proof.
  unfold ObjectId_of_str, accepted_id. case_bool_decide as Hlen.
  - rewrite to_bytes_is_Some. tauto.
  - split; [intros []; done|tauto].
Qed.

Lemma ObjectId_of_str_None s :
  ObjectId_of_str s = None ↔ ¬ accepted_id s.
Proof. rewrite <- ObjectId_of_str_is_Some, eq_None_not_Some. tauto. Qed.

Lemma hex_digits_hex_pairs (l : list ascii) :
  Nat.Even (length l) → Forall hex_digit l → hex_pairs l.
Proof.
  intros [k Hk]. revert l Hk. induction k as [|k IH]; intros l Hk Hl.
  { destruct l; [constructor|simpl in Hk; lia]. }
  destruct l as [|hi [|lo l]]; simpl in Hk; try lia.
  apply Forall_cons in Hl as [? Hl]. apply Forall_cons in Hl as [? Hl].
  apply hex_pairs_pair; [done..|]. apply IH; [lia|done].
Qed.

Lemma length_chars s : length (chars s) = String.length s.
Proof. induction s as [|c s IH]; simpl; congruence. Qed.

(** Every well-formed identifier is accepted. *)
Lemma well_formed_accepted s : well_formed_id s → accepted_id s.
Proof.
  intros [Hlen Hhex]. split; [done|].
  apply hex_digits_hex_pairs; [|done]. rewrite length_chars, Hlen. by exists 12%nat.
Qed.

Lemma to_byte_of_byte b :
  ∃ hi lo, Hex.of_byte b = String hi (String lo EmptyString)
           ∧ Hex.to_byte hi lo = Some b
           ∧ Hex.is_space hi = false.
Proof. destruct b; do 2 eexists; split_and!; reflexivity. Qed.

Lemma to_bytes_of_bytes l : Hex.to_bytes (Hex.of_bytes l) = Some l.
Proof.
  induction l as [|b l IH]; [done|]. cbn [Hex.of_bytes].
  destruct (to_byte_of_byte b) as (hi & lo & -> & Hb & Hsp).
  change (Hex.to_bytes (String hi (String lo (Hex.of_bytes l))) = Some (b :: l)).
  cbn [Hex.to_bytes]. by rewrite Hsp, Hb, IH.
Qed.

Lemma length_of_bytes l : String.length (Hex.of_bytes l) = (2 * length l)%nat.
Proof.
  induction l as [|b l IH]; [done|]. cbn [Hex.of_bytes].
  destruct (to_byte_of_byte b) as (hi & lo & -> & _ & _).
  change (S (S (String.length (Hex.of_bytes l))) = (2 * length (b :: l))%nat).
  rewrite IH. simpl. lia.
Qed.

(** [ObjectId(str(oid)) = oid] for a twelve-byte identifier. *)
Lemma ObjectId_of_str_str oid :
  length oid = 12%nat → ObjectId_of_str (ObjectId_str oid) = Some oid.
Proof.
  intros H. unfold ObjectId_of_str, ObjectId_str.
  rewrite length_of_bytes, H, bool_decide_eq_true_2 by done.
  apply to_bytes_of_bytes.
Qed.

(** A digest prints as 64 characters; in particular it is not empty. *)
Lemma hexdigest_length msg : String.length (SHA256.hexdigest msg) = 64%nat.
Proof.
  unfold SHA256.hexdigest.
  destruct (SHA256.digest msg) as [[[[[[[a b] c] d] e] f] g] h].
  reflexivity.
Qed.

Lemma hexdigest_nonempty msg : SHA256.hexdigest msg ≠ "".
Proof.
  intros H. pose proof (hexdigest_length msg) as Hl. by rewrite H in Hl.
Qed.

(** ** Properties of the handlers *)

Section Properties.

Variable py_repr : value -> string.

#[local] Abbreviation serialize := (serialize py_repr).
#[local] Abbreviation get_entity := (get_entity py_repr).
#[local] Abbreviation create_entity := (create_entity py_repr).
#[local] Abbreviation list_entities := (list_entities py_repr).
#[local] Abbreviation issue_token := (issue_token py_repr).
#[local] Abbreviation issued := (issued py_repr).
#[local] Abbreviation tokens_consistent := (tokens_consistent py_repr).
#[local] Abbreviation users_ok := (users_ok py_repr).
#[local] Abbreviation serialized := (serialized py_repr).
#[local] Abbreviation carries_id := (carries_id py_repr).

(** *** [serialize] *)

Lemma serialize_Some (d : pydict) v w :
  d !! "_id" = Some v →
  serialize (Some d) w
  = (Ok (Some (<["id" := VStr (py_str py_repr v)]> (delete "_id" d))), w).
Proof.
  intros Hid. unfold serialize. case_bool_decide as He.
  { subst d. by rewrite lookup_empty in Hid. }
  unfold bind, getitem. by rewrite Hid.
Qed.

Lemma serialized_keys (d : pydict) v :
  let d' : pydict := <["id" := VStr (py_str py_repr v)]> (delete "_id" d) in
  d' !! "id" = Some (VStr (py_str py_repr v)) ∧ d' !! "_id" = None.
Proof.
  simpl. split.
  - by rewrite lookup_insert_eq.
  - by rewrite lookup_insert_ne, lookup_delete_eq.
Qed.

(** *** Reading one entity *)

Lemma get_entity_invalid c detail s w :
  ¬ accepted_id s →
  get_entity c detail s w = (Raise (HTTPException 400 "Invalid id"), w).
Proof.
  intros H%ObjectId_of_str_None.
  unfold get_entity, bind, to_object_id. by rewrite H.
Qed.

Lemma get_entity_absent c detail s oid w :
  ObjectId_of_str s = Some oid →
  Forall (fun d : pydict => d !! "_id" ≠ Some (VOid oid)) (coll w c) →
  get_entity c detail s w
  = (Raise (HTTPException 404 detail), log (Call_find_one c [("_id", VOid oid)]) w).
Proof.
  intros Hs Habs.
  unfold get_entity, bind, to_object_id. rewrite Hs. simpl.
  assert (first_match [("_id", VOid oid)] (coll w c) = None) as ->; [|done].
  apply first_match_one_None. by apply Forall_forall.
Qed.

Lemma get_entity_present c detail s oid (d : pydict) w :
  ObjectId_of_str s = Some oid →
  unique_on "_id" (coll w c) →
  d ∈ coll w c →
  d !! "_id" = Some (VOid oid) →
  get_entity c detail s w
  = (Ok (Some (<["id" := VStr (ObjectId_str oid)]> (delete "_id" d))),
     log (Call_find_one c [("_id", VOid oid)]) w).
Proof.
  intros Hs Hu Hd Hid.
  unfold get_entity, bind, to_object_id. rewrite Hs.
  unfold ret, find_one. cbn beta iota zeta.
  rewrite (first_match_unique "_id" (VOid oid) _ d Hu Hd Hid).
  cbn [not_doc]. case_bool_decide as He.
  { subst d. by rewrite lookup_empty in Hid. }
  by rewrite (serialize_Some d (VOid oid)).
Qed.

(** C7 (as amended): [get_course] and [get_product] answer 400 "Invalid
    id" to every string [ObjectId] rejects, that is every string that is
    not 24 characters of hexadecimal digit pairs with whitespace around
    the pairs; every identifier of 24 hexadecimal digits is accepted; to
    an accepted identifier they answer 404 when no stored document has
    it, and the serialized document that has it otherwise. *)
Theorem get_by_id (s : string) (w : world) :
  (¬ accepted_id s →
     get_course py_repr s w = (Raise (HTTPException 400 "Invalid id"), w)
     ∧ get_product py_repr s w = (Raise (HTTPException 400 "Invalid id"), w))
  ∧ (well_formed_id s → accepted_id s)
  ∧ (accepted_id s →
     ∃ oid, ObjectId_of_str s = Some oid ∧
       (Forall (fun d : pydict => d !! "_id" ≠ Some (VOid oid)) (coll w "course") →
          fst (get_course py_repr s w)
          = Raise (HTTPException 404 "Course not found"))
       ∧ (Forall (fun d : pydict => d !! "_id" ≠ Some (VOid oid)) (coll w "product") →
          fst (get_product py_repr s w)
          = Raise (HTTPException 404 "Product not found"))
       ∧ (∀ d : pydict,
            unique_on "_id" (coll w "course") →
            d ∈ coll w "course" → d !! "_id" = Some (VOid oid) →
            fst (get_course py_repr s w)
            = Ok (Some (<["id" := VStr (ObjectId_str oid)]> (delete "_id" d))))
       ∧ (∀ d : pydict,
            unique_on "_id" (coll w "product") →
            d ∈ coll w "product" → d !! "_id" = Some (VOid oid) →
            fst (get_product py_repr s w)
            = Ok (Some (<["id" := VStr (ObjectId_str oid)]> (delete "_id" d))))).
Proof.
  split_and!.
  - intros H. split; by apply get_entity_invalid.
  - apply well_formed_accepted.
  - intros [oid Hs]%ObjectId_of_str_is_Some. exists oid. split; [done|].
    split_and!.
    + intros H. change (get_course py_repr s w)
        with (get_entity "course" "Course not found" s w).
      by rewrite (get_entity_absent _ _ _ oid).
    + intros H. change (get_product py_repr s w)
        with (get_entity "product" "Product not found" s w).
      by rewrite (get_entity_absent _ _ _ oid).
    + intros d Hu Hd Hid. change (get_course py_repr s w)
        with (get_entity "course" "Course not found" s w).
      by rewrite (get_entity_present _ _ _ oid d).
    + intros d Hu Hd Hid. change (get_product py_repr s w)
        with (get_entity "product" "Product not found" s w).
      by rewrite (get_entity_present _ _ _ oid d).
Qed.

(** *** The empty token *)

(** C8: an [X-Token] header holding the empty string is answered like a
    missing header: [me] raises 401 "Missing token" and the two creation
    handlers raise 401 "Unauthorized", and the store is left as it was,
    with no call made to it. *)
Theorem empty_token_as_absent (gen : ObjectId) (course : Course.t)
    (product : Product.t) (w : world) :
  me py_repr (Some "") w = (Raise (HTTPException 401 "Missing token"), w)
  ∧ me py_repr (Some "") w = me py_repr None w
  ∧ create_course py_repr gen course (Some "") w
    = (Raise (HTTPException 401 "Unauthorized"), w)
  ∧ create_course py_repr gen course (Some "") w
    = create_course py_repr gen course None w
  ∧ create_product py_repr gen product (Some "") w
    = (Raise (HTTPException 401 "Unauthorized"), w)
  ∧ create_product py_repr gen product (Some "") w
    = create_product py_repr gen product None w
  ∧ calls (snd (me py_repr (Some "") w)) = calls w
  ∧ calls (snd (create_course py_repr gen course (Some "") w)) = calls w
  ∧ calls (snd (create_product py_repr gen product (Some "") w)) = calls w.
Proof. split_and!; reflexivity. Qed.

(** *** Creating an entity *)

Lemma token_lookup_None tok w :
  Forall (fun d : pydict => d !! "api_token" ≠ Some (VStr tok)) (coll w "user") →
  first_match [("api_token", VStr tok)] (coll w "user") = None.
Proof. intros H. apply first_match_one_None. by apply Forall_forall. Qed.

Lemma token_lookup_found tok w :
  Exists (fun d : pydict => d !! "api_token" = Some (VStr tok)) (coll w "user") →
  not_doc (first_match [("api_token", VStr tok)] (coll w "user")) = false.
Proof.
  intros (d & Hd & Ht)%Exists_exists.
  apply not_true_iff_false. rewrite not_doc_first_match.
  destruct (first_match_is_Some [("api_token", VStr tok)] _ d Hd) as [x Hx];
    [by apply matches_one|congruence].
Qed.

Lemma create_entity_denied c gen data x_token w :
  token_unknown x_token w →
  fst (create_entity c gen data x_token w) = Raise (HTTPException 401 "Unauthorized")
  ∧ db (snd (create_entity c gen data x_token w)) = db w.
Proof.
  intros H. unfold create_entity, bind, or_.
  destruct x_token as [tok|]; [|done].
  cbn [not_str]. case_bool_decide; [done|].
  unfold find_one, ret. cbn [from_option id].
  rewrite (token_lookup_None tok w H). done.
Qed.

Lemma first_match_snoc_fresh v (l : list pydict) (d : pydict) :
  Forall (fun x : pydict => x !! "_id" ≠ Some v) l →
  d !! "_id" = Some v →
  first_match [("_id", v)] (l ++ [d]) = Some d.
Proof.
  intros Hl Hd. apply first_match_Some. exists (length l). split_and!.
  - by rewrite lookup_app_r, Nat.sub_diag.
  - by apply matches_one.
  - intros j y Hj Hlt Hm%matches_one.
    rewrite lookup_app_l in Hj by done.
    eapply Forall_lookup_1 in Hl; [|done]. done.
Qed.

Lemma create_entity_ok c gen (data : pydict) tok w :
  token_known tok w →
  fresh_id gen (coll w c) →
  data !! "_id" = None →
  create_entity c gen data (Some tok) w
  = (Ok (Some (<["id" := VStr (ObjectId_str gen)]> data)),
     log (Call_find_one c [("_id", VOid gen)])
       (set_coll c (coll w c ++ [<["_id" := VOid gen]> data])
          (log (Call_insert_one c data)
             (log (Call_find_one "user" [("api_token", VStr tok)]) w)))).
Proof.
  intros [Hne Hex] [Hlen Hfresh] Hdata.
  unfold create_entity, bind, or_. cbn [not_str].
  rewrite bool_decide_eq_false_2 by done.
  unfold find_one at 1. unfold ret at 1. cbn [from_option id].
  rewrite (token_lookup_found tok w Hex).
  unfold create_document, bind, insert_one. rewrite Hdata. cbn [from_option id].
  rewrite coll_log. rewrite decide_False; last first.
  { intros (d & Hd & Hid)%Exists_exists.
    by eapply (proj1 (Forall_forall _ _) Hfresh). }
  unfold ret at 1. cbn [py_str].
  unfold ObjectId_new. rewrite (ObjectId_of_str_str gen Hlen).
  unfold ret at 1, find_one. rewrite coll_set_coll_eq.
  rewrite (first_match_snoc_fresh (VOid gen)); [|done|by rewrite lookup_insert_eq].
  rewrite (serialize_Some _ (VOid gen)) by by rewrite lookup_insert_eq.
  by rewrite (delete_insert_id _ _ _ Hdata).
Qed.

(** Whenever a creation returns, it returns the serialized form of the
    document it stored. *)
Lemma create_entity_returns c gen (data : pydict) x_token r w w' :
  data !! "_id" = None →
  create_entity c gen data x_token w = (Ok r, w') →
  r = Some (<["id" := VStr (ObjectId_str gen)]> data)
  ∧ <["_id" := VOid gen]> data ∈ coll w' c.
Proof.
  intros Hdata. unfold create_entity, bind, or_.
  destruct x_token as [tok|]; [|done].
  cbn [not_str]. case_bool_decide as Htok; [done|].
  unfold find_one at 1. unfold ret at 1. cbn [from_option id].
  destruct (not_doc (first_match _ (coll w "user"))) eqn:Hdoc; [done|].
  unfold create_document, bind, insert_one. rewrite Hdata. cbn [from_option id].
  rewrite coll_log. case_decide as Hdup; [done|].
  unfold ret at 1. cbn [py_str].
  unfold ObjectId_new.
  destruct (ObjectId_of_str (ObjectId_str gen)) as [oid|] eqn:Hoid; [|done].
  assert (oid = gen) as ->.
  { unfold ObjectId_of_str, ObjectId_str in Hoid.
    case_bool_decide; [|done]. rewrite to_bytes_of_bytes in Hoid. congruence. }
  unfold ret at 1, find_one. rewrite coll_set_coll_eq.
  rewrite (first_match_snoc_fresh (VOid gen)); [| |by rewrite lookup_insert_eq].
  2:{ apply Forall_forall. intros d Hd Hid. apply Hdup, Exists_exists. eauto. }
  rewrite (serialize_Some _ (VOid gen)) by by rewrite lookup_insert_eq.
  rewrite (delete_insert_id _ _ _ Hdata).
  intros [= <- <-]. split; [done|].
  rewrite coll_log, coll_set_coll_eq. set_solver.
Qed.

(** *** Listing *)

Lemma carries_id_intro stored (d0 : pydict) v :
  d0 ∈ stored → d0 !! "_id" = Some v →
  carries_id stored (Some (<["id" := VStr (py_str py_repr v)]> (delete "_id" d0))).
Proof.
  intros Hd Hv. exists d0, v, (<["id" := VStr (py_str py_repr v)]> (delete "_id" d0)).
  split_and!; try done; apply serialized_keys.
Qed.

Lemma serialized_eq (d : pydict) v :
  d !! "_id" = Some v →
  serialized d = <["id" := VStr (py_str py_repr v)]> (delete "_id" d).
Proof. intros H. unfold serialized. by rewrite H. Qed.

Lemma filter_matches_nil (l : list pydict) : filter (matches []) l = l.
Proof.
  induction l as [|d l IH]; [done|].
  rewrite filter_cons_True by apply Forall_nil_2. by rewrite IH.
Qed.

Lemma mapM_serialize (docs : list pydict) w :
  have_keys ["_id"] docs →
  mapM (fun d => serialize (Some d)) docs w
  = (Ok (map (fun d => Some (serialized d)) docs), w).
Proof.
  induction 1 as [|d docs Hd Hdocs IH]; [done|].
  apply Forall_cons in Hd as [[v Hv] _].
  cbn [mapM]. unfold bind at 1. rewrite (serialize_Some d v _ Hv).
  unfold bind at 1. rewrite IH. unfold ret. cbn [map].
  by rewrite (serialized_eq d v Hv).
Qed.

Lemma list_entities_ok c limit w :
  have_keys ["_id"] (coll w c) →
  list_entities c limit w
  = (Ok (map (fun d => Some (serialized d)) (take (Z.to_nat limit) (coll w c))),
     log (Call_find c [] limit) w).
Proof.
  intros H. unfold list_entities, bind, get_documents.
  rewrite filter_matches_nil. apply mapM_serialize.
  by apply Forall_take.
Qed.

Lemma list_entities_carry_id c limit w :
  have_keys ["_id"] (coll w c) →
  ∃ rs w', list_entities c limit w = (Ok rs, w')
           ∧ Forall (carries_id (coll w c)) rs.
Proof.
  intros H. eexists _, _. split; [by apply list_entities_ok|].
  apply Forall_fmap, Forall_forall. intros d Hd.
  assert (d ∈ coll w c) as Hin.
  { apply elem_of_take in Hd as (i & Hi & _). by eapply list_elem_of_lookup_2. }
  pose proof (proj1 (Forall_forall _ _) H d Hin) as Hk.
  apply Forall_cons in Hk as [[v Hv] _]. simpl. rewrite (serialized_eq d v Hv).
  by apply carries_id_intro.
Qed.

Lemma get_entity_carries_id c detail s r w w' :
  get_entity c detail s w = (Ok r, w') → carries_id (coll w c) r.
Proof.
  unfold get_entity, bind, to_object_id.
  destruct (ObjectId_of_str s) as [oid|]; [|done].
  unfold ret, find_one. cbn beta iota zeta.
  destruct (first_match [("_id", VOid oid)] (coll w c)) as [d|] eqn:E; [|done].
  apply first_match_elem_of in E as [Hd Hid%matches_one].
  cbn [not_doc]. case_bool_decide; [done|].
  rewrite (serialize_Some d (VOid oid) _ Hid). intros [= <- <-].
  by apply (carries_id_intro _ d (VOid oid)).
Qed.

Lemma create_entity_carries_id c gen (data : pydict) x_token r w w' :
  data !! "_id" = None →
  create_entity c gen data x_token w = (Ok r, w') → carries_id (coll w' c) r.
Proof.
  intros Hdata Hrun.
  destruct (create_entity_returns _ _ _ _ _ _ _ Hdata Hrun) as [-> Hin].
  rewrite <- (delete_insert_id data "_id" (VOid gen) Hdata) at 1.
  apply (carries_id_intro _ _ (VOid gen) Hin). by rewrite lookup_insert_eq.
Qed.

Lemma Course_model_dump_no_id course : Course.model_dump course !! "_id" = None.
Proof. unfold Course.model_dump. by simplify_map_eq. Qed.

Lemma Product_model_dump_no_id product : Product.model_dump product !! "_id" = None.
Proof. unfold Product.model_dump. by simplify_map_eq. Qed.

(** C10: every document that the list, get and create handlers of
    courses and products return is the serialized form of a stored
    document: its [_id] is printed as a string under ["id"], and it has
    no ["_id"] key. *)
Theorem returned_documents_carry_id (gen : ObjectId) (course : Course.t)
    (product : Product.t) (x_token : option string) (limit : Z)
    (s : string) (w : world) :
  (have_keys ["_id"] (coll w "course") →
     ∃ rs w', list_courses py_repr limit w = (Ok rs, w')
              ∧ Forall (carries_id (coll w "course")) rs)
  ∧ (have_keys ["_id"] (coll w "product") →
     ∃ rs w', list_products py_repr limit w = (Ok rs, w')
              ∧ Forall (carries_id (coll w "product")) rs)
  ∧ (∀ r w', get_course py_repr s w = (Ok r, w') →
             carries_id (coll w "course") r)
  ∧ (∀ r w', get_product py_repr s w = (Ok r, w') →
             carries_id (coll w "product") r)
  ∧ (∀ r w', create_course py_repr gen course x_token w = (Ok r, w') →
             carries_id (coll w' "course") r)
  ∧ (∀ r w', create_product py_repr gen product x_token w = (Ok r, w') →
             carries_id (coll w' "product") r).
Proof.
  split_and!.
  - apply (list_entities_carry_id "course").
  - apply (list_entities_carry_id "product").
  - intros r w'. apply (get_entity_carries_id "course").
  - intros r w'. apply (get_entity_carries_id "product").
  - intros r w'. apply (create_entity_carries_id "course").
    apply Course_model_dump_no_id.
  - intros r w'. apply (create_entity_carries_id "product").
    apply Product_model_dump_no_id.
Qed.

(** *** The creation handlers and routes *)

Lemma ge_0_negative m e : ge_0 (S754_finite true m e) = false.
Proof. reflexivity. Qed.

(** C6: [create_course] and [create_product] raise 401 "Unauthorized"
    and leave the collections as they were whenever the token is absent
    or held by no user document; with a token some user holds, they
    append the model's fields under the generated [_id] and return that
    document with the identifier printed under ["id"]. *)
Theorem create_requires_token (gen : ObjectId) (course : Course.t)
    (product : Product.t) (x_token : option string) (w : world) :
  (token_unknown x_token w →
     fst (create_course py_repr gen course x_token w)
       = Raise (HTTPException 401 "Unauthorized")
     ∧ db (snd (create_course py_repr gen course x_token w)) = db w
     ∧ fst (create_product py_repr gen product x_token w)
       = Raise (HTTPException 401 "Unauthorized")
     ∧ db (snd (create_product py_repr gen product x_token w)) = db w)
  ∧ (∀ tok, x_token = Some tok → token_known tok w →
       (fresh_id gen (coll w "course") →
          fst (create_course py_repr gen course x_token w)
            = Ok (Some (<["id" := VStr (ObjectId_str gen)]> (Course.model_dump course)))
          ∧ db (snd (create_course py_repr gen course x_token w))
            = <["course" := (coll w "course"
                  ++ [<["_id" := VOid gen]> (Course.model_dump course)])%list]> (db w))
       ∧ (fresh_id gen (coll w "product") →
          fst (create_product py_repr gen product x_token w)
            = Ok (Some (<["id" := VStr (ObjectId_str gen)]> (Product.model_dump product)))
          ∧ db (snd (create_product py_repr gen product x_token w))
            = <["product" := (coll w "product"
                  ++ [<["_id" := VOid gen]> (Product.model_dump product)])%list]> (db w))).
Proof.
  split.
  - intros H.
    destruct (create_entity_denied "course" gen (Course.model_dump course) _ _ H).
    destruct (create_entity_denied "product" gen (Product.model_dump product) _ _ H).
    done.
  - intros tok -> Hk. split; intros Hf.
    + change (create_course py_repr gen course (Some tok) w)
        with (create_entity "course" gen (Course.model_dump course) (Some tok) w).
      by rewrite (create_entity_ok _ _ _ _ _ Hk Hf (Course_model_dump_no_id _)).
    + change (create_product py_repr gen product (Some tok) w)
        with (create_entity "product" gen (Product.model_dump product) (Some tok) w).
      by rewrite (create_entity_ok _ _ _ _ _ Hk Hf (Product_model_dump_no_id _)).
Qed.

(** C5: a body with [price = -1] is rejected with a validation error
    whatever the token and the store, before the handler runs and with
    the store as it was; a body with [price = 0] and a token some user
    holds is created: the document is appended to its collection under
    the generated [_id] and returned with the identifier printed. *)
Theorem create_validates_price (gen : ObjectId) (course : Course.t)
    (product : Product.t) (x_token : option string) (w : world) :
  (Course.price course = float_minus_one →
     post_courses py_repr gen course x_token w = (Raise RequestValidationError, w))
  ∧ (Product.price product = float_minus_one →
     post_products py_repr gen product x_token w = (Raise RequestValidationError, w))
  ∧ (∀ tok, x_token = Some tok → token_known tok w →
       (Course.price course = float_zero → fresh_id gen (coll w "course") →
          fst (post_courses py_repr gen course x_token w)
            = Ok (Some (<["id" := VStr (ObjectId_str gen)]> (Course.model_dump course)))
          ∧ db (snd (post_courses py_repr gen course x_token w))
            = <["course" := (coll w "course"
                  ++ [<["_id" := VOid gen]> (Course.model_dump course)])%list]> (db w))
       ∧ (Product.price product = float_zero → fresh_id gen (coll w "product") →
          fst (post_products py_repr gen product x_token w)
            = Ok (Some (<["id" := VStr (ObjectId_str gen)]> (Product.model_dump product)))
          ∧ db (snd (post_products py_repr gen product x_token w))
            = <["product" := (coll w "product"
                  ++ [<["_id" := VOid gen]> (Product.model_dump product)])%list]> (db w))).
Proof.
  split_and!.
  - intros H. unfold post_courses, Course.validate. by rewrite H.
  - intros H. unfold post_products, Product.validate. by rewrite H.
  - intros tok -> Hk. split; intros Hp Hf.
    + unfold post_courses, Course.validate. rewrite Hp. cbn [ge_0 float_zero SFleb SFcompare].
      change (create_course py_repr gen course (Some tok) w)
        with (create_entity "course" gen (Course.model_dump course) (Some tok) w).
      by rewrite (create_entity_ok _ _ _ _ _ Hk Hf (Course_model_dump_no_id _)).
    + unfold post_products, Product.validate. rewrite Hp. cbn [ge_0 float_zero SFleb SFcompare].
      change (create_product py_repr gen product (Some tok) w)
        with (create_entity "product" gen (Product.model_dump product) (Some tok) w).
      by rewrite (create_entity_ok _ _ _ _ _ Hk Hf (Product_model_dump_no_id _)).
Qed.

(** *** Login *)

(** The run of [login], case by case. *)
Lemma login_run payload w :
  let e := LoginRequest.email payload in
  let h := hash_password (LoginRequest.password payload) in
  let w1 := log (Call_find_one "user" [("email", VStr e)]) w in
  login py_repr payload w =
  match first_match [("email", VStr e)] (coll w "user") with
  | Some u =>
      if bool_decide (u !! "password_hash" = Some (VStr h)) then
        match u !! "_id" with
        | Some v =>
            let w2 := snd (update_one "user" [("_id", v)]
                             [("api_token", VStr (issue_token v))] w1) in
            match u !! "name" with
            | Some n =>
                (Ok {| token := issue_token v;
                       user := {[ "id" := VStr (py_str py_repr v);
                                  "name" := n; "email" := VStr e ]} |}, w2)
            | None => (Raise (KeyError "name"), w2)
            end
        | None => (Raise (KeyError "_id"), w1)
        end
      else (Raise invalid_credentials, w1)
  | None => (Raise invalid_credentials, w1)
  end.
Proof.
  intros e h w1. unfold login, bind, find_one. fold e h w1.
  destruct (first_match [("email", VStr e)] (coll w "user")) as [u|] eqn:Hu;
    [|done].
  pose proof (first_match_elem_of _ _ _ Hu) as [Hin Hm%matches_one].
  replace (not_doc (Some u)) with false; last first.
  { symmetry. apply not_true_iff_false. intros Hn.
    change (Some u) with (Some u : option pydict) in Hn.
    rewrite <- Hu in Hn. apply not_doc_first_match in Hn. congruence. }
  cbn [from_option id orb]. case_bool_decide as Hh; [|done].
  cbn [negb]. unfold getitem at 1.
  destruct (u !! "_id") as [v|] eqn:Hv; [|done].
  unfold ret at 1. cbn beta iota. unfold getitem at 1. rewrite Hv.
  unfold ret at 1. cbn beta iota.
  fold (issue_token v).
  destruct (update_one "user" [("_id", v)] [("api_token", VStr (issue_token v))] w1)
    as [[[]|ex] w2] eqn:Hupd.
  2:{ unfold update_one in Hupd. by repeat case_match. }
  cbn [snd]. unfold getitem. rewrite Hv. unfold ret at 1. cbn beta iota.
  destruct (u !! "name") as [n|]; [|done].
  unfold ret at 1. cbn beta iota. by rewrite Hm.
Qed.

Lemma list_find_unique k v (l : list pydict) i (d : pydict) :
  unique_on k l → l !! i = Some d → d !! k = Some v →
  list_find (matches [(k, v)]) l = Some (i, d).
Proof.
  intros Hu Hi Hk. apply list_find_Some. split_and!; [done|by apply matches_one|].
  intros j y Hj Hlt Hm%matches_one.
  assert (j = i); [|lia].
  eapply (NoDup_lookup _ _ _ (Some v) Hu); rewrite list_lookup_fmap.
  - by rewrite Hj; simpl; rewrite Hm.
  - by rewrite Hi; simpl; rewrite Hk.
Qed.

(** What [login] leaves in the store: the first document with the
    identifier [v] gets the token. *)
Lemma update_token_world v T w1 (u : pydict) :
  u ∈ coll w1 "user" → u !! "_id" = Some v →
  ∃ j (x : pydict),
    coll w1 "user" !! j = Some x ∧ x !! "_id" = Some v
    ∧ (∀ j' (y : pydict), coll w1 "user" !! j' = Some y → (j' < j)%nat →
                          y !! "_id" ≠ Some v)
    ∧ snd (update_one "user" [("_id", v)] [("api_token", VStr T)] w1)
      = set_coll "user" (<[j := <["api_token" := VStr T]> x]> (coll w1 "user"))
          (log (Call_update_one "user" [("_id", v)] [("api_token", VStr T)]) w1).
Proof.
  intros Hin Hv. unfold update_one.
  destruct (list_find (matches [("_id", v)]) (coll w1 "user")) as [[j x]|] eqn:E.
  - apply list_find_Some in E as (Hj & Hm%matches_one & Hleast).
    exists j, x. split_and!; try done.
    intros j' y Hy Hlt Hy'. eapply Hleast; [done..|by apply matches_one].
  - apply list_find_None in E.
    eapply (proj1 (Forall_forall _ _)) in E; [|done].
    destruct E. by apply matches_one.
Qed.

(** A successful [login], read backwards. *)
Lemma login_Ok payload out w w' :
  let e := LoginRequest.email payload in
  let h := hash_password (LoginRequest.password payload) in
  login py_repr payload w = (Ok out, w') →
  ∃ i (u : pydict) v n,
    coll w "user" !! i = Some u
    ∧ (∀ j (y : pydict), coll w "user" !! j = Some y → (j < i)%nat →
                         y !! "email" ≠ Some (VStr e))
    ∧ u !! "email" = Some (VStr e)
    ∧ u !! "password_hash" = Some (VStr h)
    ∧ u !! "_id" = Some v
    ∧ u !! "name" = Some n
    ∧ out = {| token := issue_token v;
               user := {[ "id" := VStr (py_str py_repr v);
                          "name" := n; "email" := VStr e ]} |}
    ∧ w' = snd (update_one "user" [("_id", v)] [("api_token", VStr (issue_token v))]
                  (log (Call_find_one "user" [("email", VStr e)]) w)).
Proof.
  intros e h. rewrite login_run. fold e h. cbn zeta.
  destruct (first_match [("email", VStr e)] (coll w "user")) as [u|] eqn:Hu;
    [|done].
  apply first_match_Some in Hu as (i & Hi & Hm%matches_one & Hleast).
  case_bool_decide as Hh; [|done].
  destruct (u !! "_id") as [v|] eqn:Hv; [|done].
  destruct (u !! "name") as [n|] eqn:Hn; [|done].
  intros [= <- <-]. exists i, u, v, n. split_and!; try done.
  intros j y Hy Hlt Hy'. eapply Hleast; [done..|by apply matches_one].
Qed.

(** A [login] that finds the account and the right hash succeeds. *)
Lemma login_succeeds payload w (u : pydict) v n :
  let e := LoginRequest.email payload in
  let h := hash_password (LoginRequest.password payload) in
  first_match [("email", VStr e)] (coll w "user") = Some u →
  u !! "password_hash" = Some (VStr h) →
  u !! "_id" = Some v → u !! "name" = Some n →
  login py_repr payload w
  = (Ok {| token := issue_token v;
           user := {[ "id" := VStr (py_str py_repr v);
                      "name" := n; "email" := VStr e ]} |},
     snd (update_one "user" [("_id", v)] [("api_token", VStr (issue_token v))]
            (log (Call_find_one "user" [("email", VStr e)]) w))).
Proof.
  intros e h Hu Hh Hv Hn. rewrite login_run. fold e h. cbn zeta.
  rewrite Hu, bool_decide_eq_true_2, Hv, Hn; done.
Qed.

(** C9: a successful [login] changes one user document, the one matched
    by the email, and in it the field [api_token] only: its other fields,
    the other user documents and every other collection stay as they
    were.  ([_id] is unique within the collection.) *)
Theorem login_frame (payload : LoginRequest.t) (out : LoginOut) (w w' : world) :
  unique_on "_id" (coll w "user") →
  login py_repr payload w = (Ok out, w') →
  ∃ i (u u' : pydict),
    coll w "user" !! i = Some u
    ∧ u !! "email" = Some (VStr (LoginRequest.email payload))
    ∧ coll w' "user" !! i = Some u'
    ∧ u' = <["api_token" := VStr (token out)]> u
    ∧ u' !! "name" = u !! "name"
    ∧ u' !! "email" = u !! "email"
    ∧ u' !! "password_hash" = u !! "password_hash"
    ∧ (∀ k, k ≠ "api_token" → u' !! k = u !! k)
    ∧ length (coll w' "user") = length (coll w "user")
    ∧ (∀ j, j ≠ i → coll w' "user" !! j = coll w "user" !! j)
    ∧ (∀ c, c ≠ "user" → db w' !! c = db w !! c).
Proof.
  intros Hu (i & u & v & n & Hi & _ & He & _ & Hv & _ & -> & ->)%login_Ok.
  exists i, u, (<["api_token" := VStr (issue_token v)]> u).
  unfold update_one. rewrite coll_log.
  rewrite (list_find_unique "_id" v _ i u Hu Hi Hv). cbn [snd token apply_set fold_left fst].
  rewrite coll_set_coll_eq.
  assert (i < length (coll w "user"))%nat by by eapply lookup_lt_Some.
  split_and!; try done.
  - by rewrite list_lookup_insert_eq.
  - by rewrite lookup_insert_ne.
  - by rewrite lookup_insert_ne.
  - by rewrite lookup_insert_ne.
  - intros k Hk. by rewrite lookup_insert_ne.
  - by rewrite length_insert.
  - intros j Hj. by rewrite list_lookup_insert_ne.
  - intros c Hc. unfold set_coll. cbn [db]. by rewrite lookup_insert_ne.
Qed.


(** *** Registration *)

Lemma register_duplicate gen payload w :
  Exists (fun d : pydict => d !! "email" = Some (VStr (RegisterRequest.email payload)))
         (coll w "user") →
  register py_repr gen payload w
  = (Raise (HTTPException 400 "Email already registered"),
     log (Call_find_one "user" [("email", VStr (RegisterRequest.email payload))]) w).
Proof.
  intros (d & Hd & He)%Exists_exists.
  unfold register, bind, find_one.
  destruct (not_doc (first_match _ (coll w "user"))) eqn:Hn; [|done].
  apply not_doc_first_match in Hn.
  destruct (first_match_is_Some
              [("email", VStr (RegisterRequest.email payload))] _ d Hd) as [x Hx];
    [by apply matches_one|congruence].
Qed.

Lemma register_fresh gen payload w :
  Forall (fun d : pydict => d !! "email" ≠ Some (VStr (RegisterRequest.email payload)))
         (coll w "user") →
  Forall (fun d : pydict => d !! "_id" ≠ Some (VOid gen)) (coll w "user") →
  register py_repr gen payload w
  = (Ok (user_public gen payload),
     set_coll "user" (coll w "user" ++ [user_doc gen payload])
       (log (Call_insert_one "user"
               {[ "name" := VStr (RegisterRequest.name payload);
                  "email" := VStr (RegisterRequest.email payload);
                  "password_hash" :=
                    VStr (hash_password (RegisterRequest.password payload)) ]})
          (log (Call_find_one "user"
                  [("email", VStr (RegisterRequest.email payload))]) w))).
Proof.
  intros Hemail Hid.
  unfold register, bind, find_one.
  rewrite (proj2 (first_match_one_None _ _ _)); last first.
  { intros d Hd. by apply (proj1 (Forall_forall _ _) Hemail). }
  cbn [not_doc negb]. unfold insert_one.
  assert (({[ "name" := VStr (RegisterRequest.name payload);
              "email" := VStr (RegisterRequest.email payload);
              "password_hash" :=
                VStr (hash_password (RegisterRequest.password payload)) ]}
           : pydict) !! "_id" = None) as -> by by simplify_map_eq.
  cbn [from_option id]. rewrite coll_log, decide_False; [done|].
  intros (d & Hd & Hd')%Exists_exists.
  by apply (proj1 (Forall_forall _ _) Hid d Hd).
Qed.


(** X1: after a successful [register], a second [register] with the same
    email raises 400 "Email already registered". *)
Lemma register_once gen gen' payload payload' w :
  let e := RegisterRequest.email payload in
  RegisterRequest.email payload' = e →
  Forall (fun d : pydict => d !! "email" ≠ Some (VStr e)) (coll w "user") →
  Forall (fun d : pydict => d !! "_id" ≠ Some (VOid gen)) (coll w "user") →
  fst (register py_repr gen' payload' (snd (register py_repr gen payload w)))
  = Raise (HTTPException 400 "Email already registered").
Proof.
  intros e He Hemail Hid. rewrite (register_fresh gen payload w Hemail Hid).
  cbn [snd]. rewrite register_duplicate; [done|].
  rewrite coll_set_coll_eq, He. apply Exists_app. right. apply Exists_cons_hd.
  unfold user_doc. by simplify_map_eq.
Qed.

(** *** Tokens *)

(** The run of [me] on a token that is not empty. *)
Lemma me_run tok w :
  tok ≠ "" →
  let w1 := log (Call_find_one "user" [("api_token", VStr tok)]) w in
  me py_repr (Some tok) w =
  match first_match [("api_token", VStr tok)] (coll w "user") with
  | Some u =>
      match u !! "_id", u !! "name", u !! "email" with
      | Some v, Some n, Some e =>
          (Ok {[ "id" := VStr (py_str py_repr v); "name" := n; "email" := e ]}, w1)
      | None, _, _ => (Raise (KeyError "_id"), w1)
      | Some _, None, _ => (Raise (KeyError "name"), w1)
      | Some _, Some _, None => (Raise (KeyError "email"), w1)
      end
  | None => (Raise invalid_token, w1)
  end.
Proof.
  intros Hne w1. unfold me. cbn [not_str].
  rewrite bool_decide_eq_false_2 by done.
  unfold bind, find_one. cbn [from_option id]. fold w1.
  destruct (first_match [("api_token", VStr tok)] (coll w "user")) as [u|] eqn:Hu;
    [|done].
  replace (not_doc (Some u)) with false; last first.
  { symmetry. apply not_true_iff_false. intros Hn.
    rewrite <- Hu in Hn. apply not_doc_first_match in Hn. congruence. }
  cbn [from_option id]. unfold getitem, ret.
  by destruct (u !! "_id"), (u !! "name"), (u !! "email").
Qed.

Lemma same_but_token_insert (d : pydict) t :
  same_but_token (<["api_token" := t]> d) d.
Proof. intros k Hk. by rewrite lookup_insert_ne. Qed.

Lemma lookup_token_update (l : list pydict) j (x : pydict) t m :
  l !! j = Some x →
  match l !! m with
  | Some y => ∃ y' : pydict,
      <[j := <["api_token" := t]> x]> l !! m = Some y' ∧ same_but_token y' y
  | None => <[j := <["api_token" := t]> x]> l !! m = None
  end.
Proof.
  intros Hj. destruct (decide (m = j)) as [->|Hne].
  - rewrite Hj. eexists. split; [|apply same_but_token_insert].
    apply list_lookup_insert_eq. by eapply lookup_lt_Some.
  - rewrite list_lookup_insert_ne by done.
    destruct (l !! m) as [y|]; [|done]. by exists y.
Qed.

(** Giving a document its token does not change what a query on another
    field finds, up to that token. *)
Lemma first_match_token_update k q (l : list pydict) j (x : pydict) t :
  k ≠ "api_token" → l !! j = Some x →
  match first_match [(k, q)] l with
  | Some d => ∃ d1 : pydict,
      first_match [(k, q)] (<[j := <["api_token" := t]> x]> l) = Some d1
      ∧ same_but_token d1 d
  | None => first_match [(k, q)] (<[j := <["api_token" := t]> x]> l) = None
  end.
Proof.
  intros Hk Hj.
  destruct (first_match [(k, q)] l) as [d|] eqn:E.
  - apply first_match_Some in E as (i & Hi & Hm%matches_one & Hleast).
    pose proof (lookup_token_update l j x t i Hj) as Hup. rewrite Hi in Hup.
    destruct Hup as (d1 & Hd1 & Hsame). exists d1. split; [|done].
    apply first_match_Some. exists i. split_and!; [done| |].
    + apply matches_one. by rewrite Hsame.
    + intros m y' Hy' Hlt Hm'%matches_one.
      pose proof (lookup_token_update l j x t m Hj) as Hup.
      destruct (l !! m) as [y|] eqn:Hy; [|congruence].
      destruct Hup as (y'' & Hy'' & Hsame'). simplify_eq.
      apply (Hleast m y Hy Hlt). apply matches_one. by rewrite <- Hsame'.
  - apply first_match_one_None. intros y' [m Hy']%list_elem_of_lookup Hq.
    pose proof (lookup_token_update l j x t m Hj) as Hup.
    destruct (l !! m) as [y|] eqn:Hy; [|congruence].
    destruct Hup as (y'' & Hy'' & Hsame'). simplify_eq.
    rewrite first_match_one_None in E.
    apply (E y); [by eapply list_elem_of_lookup_2|]. by rewrite <- Hsame'.
Qed.

Lemma have_keys_token_update ks (l : list pydict) j (x : pydict) t :
  have_keys ks l → l !! j = Some x →
  have_keys ks (<[j := <["api_token" := t]> x]> l).
Proof.
  intros Hl Hj. apply Forall_insert; [done|].
  pose proof (Forall_lookup_1 _ _ _ _ Hl Hj) as Hx. cbn beta in Hx.
  eapply Forall_impl; [exact Hx|]. intros k [v Hv]. cbn beta.
  destruct (decide (k = "api_token")) as [->|Hne].
  - rewrite lookup_insert_eq. eauto.
  - rewrite lookup_insert_ne by done. eauto.
Qed.

Lemma issue_token_nonempty v : issue_token v ≠ "".
Proof. apply hexdigest_nonempty. Qed.

(** C1 (as amended): the token is the digest of the user's identifier
    alone, so a second successful [login] returns what the first
    returned, the same token included; its overwrite stores the value
    already there, leaving every collection as the first login left it;
    and the token still passes [me] after the second login. *)
Theorem second_login_same_token (payload : LoginRequest.t) (out1 : LoginOut)
    (w w1 : world) :
  have_keys ["_id"; "name"; "email"] (coll w "user") →
  login py_repr payload w = (Ok out1, w1) →
  (∃ (u : pydict) v,
     u ∈ coll w "user"
     ∧ u !! "email" = Some (VStr (LoginRequest.email payload))
     ∧ u !! "_id" = Some v
     ∧ token out1 = SHA256.hexdigest (encode (py_str py_repr v)))
  ∧ ∃ out2 w2,
      login py_repr payload w1 = (Ok out2, w2)
      ∧ token out2 = token out1
      ∧ out2 = out1
      ∧ db w2 = db w1
      ∧ ∃ r, me py_repr (Some (token out1)) w2
             = (Ok r, log (Call_find_one "user" [("api_token", VStr (token out1))]) w2).
Proof.
  intros Hkeys Hlogin.
  pose proof Hlogin as
    (i & u & v & n & Hi & Hleast & He & Hh & Hv & Hn & -> & ->)%login_Ok.
  set (e := LoginRequest.email payload) in *.
  set (T := issue_token v) in *. cbn [token].
  assert (u ∈ coll w "user") as Hin by by eapply list_elem_of_lookup_2.
  split; [by exists u, v|].
  (* the store after the first login *)
  destruct (update_token_world v T (log (Call_find_one "user" [("email", VStr e)]) w) u)
    as (j & x & Hj & Hxv & Hjleast & Hw1); [done..|].
  rewrite coll_log in Hj, Hjleast, Hw1. rewrite Hw1.
  set (w1 := set_coll "user" _ _).
  assert (coll w1 "user" = <[j := <["api_token" := VStr T]> x]> (coll w "user"))
    as Hc1 by apply coll_set_coll_eq.
  assert (db w1 !! "user" = Some (coll w1 "user")) as Hdb1.
  { rewrite Hc1. unfold w1, set_coll. cbn [db]. by rewrite lookup_insert_eq. }
  assert (j < length (coll w "user"))%nat as Hjlt by by eapply lookup_lt_Some.
  assert (coll w1 "user" !! j = Some (<["api_token" := VStr T]> x)) as Hj1
    by by rewrite Hc1, list_lookup_insert_eq.
  assert (have_keys ["_id"; "name"; "email"] (coll w1 "user")) as Hkeys1.
  { rewrite Hc1. by apply have_keys_token_update. }
  (* the second login finds the same account *)
  assert (first_match [("email", VStr e)] (coll w "user") = Some u) as Hfm.
  { apply first_match_Some. exists i. split_and!; [done|by apply matches_one|].
    intros j' y Hy Hlt Hm%matches_one. by eapply Hleast. }
  pose proof (first_match_token_update "email" (VStr e) _ j x (VStr T)
                ltac:(done) Hj) as Hfm1.
  rewrite Hfm in Hfm1. destruct Hfm1 as (u1 & Hu1 & Hsame). rewrite <- Hc1 in Hu1.
  assert (u1 !! "_id" = Some v) as Hv1 by by rewrite Hsame.
  pose proof (login_succeeds payload w1 u1 v n Hu1) as Hlogin2.
  rewrite !Hsame in Hlogin2 by done.
  specialize (Hlogin2 Hh Hv Hn). fold e T in Hlogin2.
  eexists _, _. split; [exact Hlogin2|]. split; [done|]. split; [done|].
  (* its overwrite hits the document that holds the token already *)
  assert (u1 ∈ coll w1 "user") as Hin1 by by apply first_match_elem_of in Hu1 as [? _].
  destruct (update_token_world v T (log (Call_find_one "user" [("email", VStr e)]) w1) u1)
    as (j2 & x2 & Hj2 & Hx2v & Hj2least & Hw2); [done..|].
  rewrite coll_log in Hj2, Hj2least, Hw2. rewrite Hw2.
  assert (j2 = j) as ->.
  { assert (¬ (j < j2)%nat) as Hge.
    { intros Hlt. apply (Hj2least j _ Hj1 Hlt). by rewrite lookup_insert_ne. }
    assert (¬ (j2 < j)%nat) as Hle; [|lia].
    intros Hlt. rewrite Hc1, list_lookup_insert_ne in Hj2 by lia.
    by apply (Hjleast j2 x2 Hj2 Hlt). }
  assert (x2 = <["api_token" := VStr T]> x) as -> by congruence.
  rewrite insert_insert_eq, (list_insert_id _ _ _ Hj1).
  set (w2 := set_coll "user" _ _).
  assert (coll w2 "user" = coll w1 "user") as Hc2 by apply coll_set_coll_eq.
  split.
  { unfold w2, set_coll. cbn [db log]. by apply insert_id. }
  rewrite (me_run T w2 (issue_token_nonempty v)). cbn zeta.
  destruct (first_match_is_Some [("api_token", VStr T)] (coll w2 "user")
              (<["api_token" := VStr T]> x)) as [d Hd].
  { rewrite Hc2. by eapply list_elem_of_lookup_2. }
  { apply matches_one. by rewrite lookup_insert_eq. }
  rewrite Hd. apply first_match_elem_of in Hd as [Hdin _].
  rewrite Hc2 in Hdin.
  pose proof (proj1 (Forall_forall _ _) Hkeys1 d Hdin) as Hk.
  apply Forall_cons in Hk as [[? ->] Hk].
  apply Forall_cons in Hk as [[? ->] Hk].
  apply Forall_cons in Hk as [[? ->] _].
  by eexists.
Qed.

Lemma issued_eq (d : pydict) v : d !! "_id" = Some v → issued d = issue_token v.
Proof. intros H. unfold issued. by rewrite H. Qed.

Lemma tokens_consistent_unique_id l : tokens_consistent l → unique_on "_id" l.
Proof.
  intros [_ Hnd]. unfold unique_on.
  apply (NoDup_fmap_1 (fun o : option value => issue_token (default VNone o))).
  by rewrite <- list_fmap_compose.
Qed.

(** In a store whose tokens are consistent, the token a successful
    [login] returns passes [me], which returns the same [{id, name,
    email}]. *)
Lemma login_token_passes_me payload out w w' :
  tokens_consistent (coll w "user") →
  login py_repr payload w = (Ok out, w') →
  me py_repr (Some (token out)) w'
  = (Ok (user out),
     log (Call_find_one "user" [("api_token", VStr (token out))]) w').
Proof.
  intros Hcons
    (i & u & v & n & Hi & _ & He & _ & Hv & Hn & -> & ->)%login_Ok.
  set (e := LoginRequest.email payload) in *.
  set (T := issue_token v) in *. cbn [token user].
  pose proof (tokens_consistent_unique_id _ Hcons) as Hu.
  destruct Hcons as [Hissued Hnd].
  unfold update_one. rewrite coll_log.
  rewrite (list_find_unique "_id" v _ i u Hu Hi Hv).
  cbn [snd apply_set fold_left fst].
  set (w' := set_coll "user" _ _).
  assert (coll w' "user" = <[i := <["api_token" := VStr T]> u]> (coll w "user"))
    as Hc by apply coll_set_coll_eq.
  assert (i < length (coll w "user"))%nat as Hlt by by eapply lookup_lt_Some.
  rewrite (me_run T w' (issue_token_nonempty v)). cbn zeta.
  assert (first_match [("api_token", VStr T)] (coll w' "user")
          = Some (<["api_token" := VStr T]> u)) as ->.
  { apply first_match_Some. exists i. rewrite Hc. split_and!.
    - by apply list_lookup_insert_eq.
    - apply matches_one. by rewrite lookup_insert_eq.
    - intros j y Hy Hj Hm%matches_one.
      rewrite list_lookup_insert_ne in Hy by lia.
      pose proof (Forall_lookup_1 _ _ _ _ Hissued Hy) as [Hnone|Hsome];
        cbn beta in *; [congruence|].
      assert (issued y = issued u) as Heq.
      { rewrite (issued_eq u v Hv). fold T. congruence. }
      assert (j = i); [|lia].
      eapply (NoDup_lookup _ _ _ (issued u) Hnd); rewrite list_lookup_fmap.
      + by rewrite Hy; simpl; rewrite Heq.
      + by rewrite Hi. }
  rewrite !lookup_insert_ne by done. by rewrite Hv, Hn, He.
Qed.

(** A string that is not empty and is no user's stored [api_token] is
    answered 401 "Invalid token", after the one lookup. *)
Lemma unknown_token_rejected tok w :
  tok ≠ "" →
  Forall (fun d : pydict => d !! "api_token" ≠ Some (VStr tok)) (coll w "user") →
  me py_repr (Some tok) w
  = (Raise (HTTPException 401 "Invalid token"),
     log (Call_find_one "user" [("api_token", VStr tok)]) w).
Proof.
  intros Hne Hno. rewrite (me_run tok w Hne). cbn zeta.
  by rewrite token_lookup_None.
Qed.

(** *** The user collection stays well formed

    The hypotheses of the theorems above hold of every store the
    handlers build: they hold of the empty collection, and [register]
    and [login] keep them. *)

Lemma users_ok_nil : users_ok [].
Proof.
  unfold users_ok, have_keys, unique_on. split_and!; try constructor.
Qed.

Lemma unique_on_snoc k (l : list pydict) (d : pydict) :
  unique_on k l → Forall (fun x : pydict => x !! k ≠ d !! k) l →
  unique_on k (l ++ [d]).
Proof.
  unfold unique_on. intros Hl Hd. rewrite fmap_app. apply NoDup_app.
  split_and!; [done| |apply NoDup_singleton].
  intros o (x & -> & Hx)%list_elem_of_fmap Ho. apply list_elem_of_singleton in Ho.
  by apply (proj1 (Forall_forall _ _) Hd x Hx).
Qed.

Lemma unique_on_token_update k (l : list pydict) j (x : pydict) t :
  k ≠ "api_token" → l !! j = Some x →
  unique_on k l → unique_on k (<[j := <["api_token" := t]> x]> l).
Proof.
  unfold unique_on. intros Hk Hj Hl.
  rewrite list_fmap_insert, lookup_insert_ne by done.
  rewrite list_insert_id; [done|]. by rewrite list_lookup_fmap, Hj.
Qed.

Lemma register_keeps_users_ok gen payload w :
  users_ok (coll w "user") →
  users_ok (coll (snd (register py_repr gen payload w)) "user").
Proof.
  intros (Hkeys & Hid & Hemail & Htok).
  unfold register, bind, find_one.
  destruct (not_doc (first_match _ (coll w "user"))) eqn:Hn; [|done].
  apply not_doc_first_match in Hn. rewrite first_match_one_None in Hn.
  cbn [negb]. unfold insert_one.
  assert (({[ "name" := VStr (RegisterRequest.name payload);
              "email" := VStr (RegisterRequest.email payload);
              "password_hash" :=
                VStr (hash_password (RegisterRequest.password payload)) ]}
           : pydict) !! "_id" = None) as -> by by simplify_map_eq.
  cbn [from_option id]. rewrite coll_log. case_decide as Hdup; [done|].
  cbn [snd ret]. rewrite coll_set_coll_eq.
  fold (user_doc gen payload).
  assert (user_doc gen payload !! "_id" = Some (VOid gen)) as Hd1
    by (unfold user_doc; by simplify_map_eq).
  assert (user_doc gen payload !! "email"
          = Some (VStr (RegisterRequest.email payload))) as Hd2
    by (unfold user_doc; by simplify_map_eq).
  split_and!.
  - apply Forall_app. split; [done|]. apply Forall_singleton.
    unfold user_doc. repeat apply Forall_cons_2; try apply Forall_nil_2;
      by simplify_map_eq.
  - apply unique_on_snoc; [done|]. apply Forall_forall. intros x Hx Heq.
    apply Hdup, Exists_exists. exists x. split; [done|]. by rewrite Heq.
  - apply unique_on_snoc; [done|]. apply Forall_forall. intros x Hx Heq.
    apply (Hn x Hx). by rewrite Heq.
  - apply Forall_app. split; [done|]. apply Forall_singleton. left.
    unfold user_doc. by simplify_map_eq.
Qed.

Lemma login_keeps_users_ok payload w :
  users_ok (coll w "user") →
  users_ok (coll (snd (login py_repr payload w)) "user").
Proof.
  intros Hok. rewrite login_run. cbn zeta.
  destruct (first_match _ (coll w "user")) as [u|] eqn:Hu; [|done].
  case_bool_decide; [|done].
  destruct (u !! "_id") as [v|] eqn:Hv; [|done].
  apply first_match_elem_of in Hu as [Hin _].
  destruct (update_token_world v (issue_token v)
              (log (Call_find_one "user"
                      [("email", VStr (LoginRequest.email payload))]) w) u)
    as (j & x & Hj & Hxv & _ & Hw); [done..|].
  rewrite coll_log in Hj, Hw.
  assert (users_ok (coll (snd (update_one "user" [("_id", v)]
                                 [("api_token", VStr (issue_token v))]
                                 (log (Call_find_one "user"
                                         [("email", VStr (LoginRequest.email payload))])
                                    w))) "user")) as Hok'.
  { rewrite Hw, coll_set_coll_eq.
    destruct Hok as (Hkeys & Hid & Hemail & Htok). split_and!.
    - by apply have_keys_token_update.
    - by apply unique_on_token_update.
    - by apply unique_on_token_update.
    - apply Forall_insert; [done|]. right.
      rewrite lookup_insert_eq. unfold issued.
      by rewrite lookup_insert_ne, Hxv. }
  by destruct (u !! "name").
Qed.

(** X2: [register] and [login] keep the user collection well formed:
    every document with its identifier, name and email, identifiers and
    emails unique, and each stored token the one issued for its
    document. *)
Theorem handlers_keep_users_ok (w : world) :
  users_ok (coll w "user") →
  (∀ gen payload, users_ok (coll (snd (register py_repr gen payload w)) "user"))
  ∧ (∀ payload, users_ok (coll (snd (login py_repr payload w)) "user")).
Proof.
  intros Hok. split; intros.
  - by apply register_keeps_users_ok.
  - by apply login_keeps_users_ok.
Qed.

(** [login] keeps the tokens consistent: it stores the token issued for
    the document it updates, and touches no identifier. *)
Lemma login_keeps_tokens_consistent payload w :
  tokens_consistent (coll w "user") →
  tokens_consistent (coll (snd (login py_repr payload w)) "user").
Proof.
  intros [Htok Hnd]. rewrite login_run. cbn zeta.
  destruct (first_match _ (coll w "user")) as [u|] eqn:Hu; [|done].
  case_bool_decide; [|done].
  destruct (u !! "_id") as [v|] eqn:Hv; [|done].
  apply first_match_elem_of in Hu as [Hin _].
  destruct (update_token_world v (issue_token v)
              (log (Call_find_one "user"
                      [("email", VStr (LoginRequest.email payload))]) w) u)
    as (j & x & Hj & Hxv & _ & Hw); [done..|].
  rewrite coll_log in Hj, Hw.
  assert (tokens_consistent
            (coll (snd (update_one "user" [("_id", v)]
                          [("api_token", VStr (issue_token v))]
                          (log (Call_find_one "user"
                                  [("email", VStr (LoginRequest.email payload))])
                             w))) "user")) as Hcons.
  { rewrite Hw, coll_set_coll_eq. split.
    - apply Forall_insert; [done|]. right.
      rewrite lookup_insert_eq. unfold issued.
      by rewrite lookup_insert_ne, Hxv.
    - rewrite list_fmap_insert.
      rewrite list_insert_id; [done|].
      rewrite list_lookup_fmap, Hj. simpl. f_equal. unfold issued.
      by rewrite lookup_insert_ne. }
  by destruct (u !! "name").
Qed.

End Properties.

(** ** The claims on a sample store *)

Section Witnesses.

Import Sample.

(** Alice logs in twice: both logins return the same token, and it
    passes [me] afterwards. *)
Lemma second_login_invalidates_counterexample :
  login repr alice_login w1 = (Ok alice_out, w2)
  ∧ login repr alice_login w2 = (Ok alice_out, w2')
  ∧ me repr (Some (token alice_out)) w2'
    = (Ok (user alice_out),
       log (Call_find_one "user" [("api_token", VStr (token alice_out))]) w2')
  ∧ ¬ second_login_invalidates repr alice_login w1.
Proof.
  split_and!; [compute_done..|].
  intros H. destruct (H alice_out w2 alice_out w2') as [Hne _]; [compute_done..|].
  by apply Hne.
Qed.

Lemma second_login_same_token_witness :
  (∃ (u : pydict) v,
     u ∈ coll w1 "user"
     ∧ u !! "email" = Some (VStr "alice@example.com")
     ∧ u !! "_id" = Some v
     ∧ alice_token = SHA256.hexdigest (encode (py_str repr v)))
  ∧ ∃ out2 w',
      login repr alice_login w2 = (Ok out2, w')
      ∧ token out2 = alice_token
      ∧ out2 = alice_out
      ∧ db w' = db w2
      ∧ ∃ r, me repr (Some alice_token) w'
             = (Ok r, log (Call_find_one "user" [("api_token", VStr alice_token)]) w').
Proof.
  apply (second_login_same_token repr alice_login alice_out w1 w2); compute_done.
Defined.



Lemma create_validates_price_witness :
  post_courses repr oid2 (rocq_course float_minus_one) (Some alice_token) w2
    = (Raise RequestValidationError, w2)
  ∧ post_products repr oid2 (rocq_product float_minus_one) (Some alice_token) w2
    = (Raise RequestValidationError, w2)
  ∧ fst (post_courses repr oid2 (rocq_course float_zero) (Some alice_token) w2)
    = Ok (Some rocq_course_out)
  ∧ coll (snd (post_courses repr oid2 (rocq_course float_zero) (Some alice_token) w2))
         "course"
    = [<["_id" := VOid oid2]> (Course.model_dump (rocq_course float_zero))]
  ∧ fst (post_products repr oid2 (rocq_product float_zero) (Some alice_token) w2)
    = Ok (Some rocq_product_out)
  ∧ coll (snd (post_products repr oid2 (rocq_product float_zero) (Some alice_token) w2))
         "product"
    = [<["_id" := VOid oid2]> (Product.model_dump (rocq_product float_zero))].
Proof.
  destruct (create_validates_price repr oid2 (rocq_course float_minus_one)
              (rocq_product float_minus_one) (Some alice_token) w2)
    as (Ha & Hb & _).
  destruct (create_validates_price repr oid2 (rocq_course float_zero)
              (rocq_product float_zero) (Some alice_token) w2)
    as (_ & _ & Hc).
  destruct (Hc alice_token) as [Hc1 Hc2]; [compute_done..|].
  destruct Hc1 as [Hc1 Hd1]; [compute_done..|].
  destruct Hc2 as [Hc2 Hd2]; [compute_done..|].
  split_and!.
  - apply Ha. reflexivity.
  - apply Hb. reflexivity.
  - exact Hc1.
  - unfold coll. by rewrite Hd1, lookup_insert_eq.
  - exact Hc2.
  - unfold coll. by rewrite Hd2, lookup_insert_eq.
Defined.

Lemma create_requires_token_witness :
  fst (create_course repr oid2 (rocq_course float_zero) None w2)
    = Raise (HTTPException 401 "Unauthorized")
  ∧ fst (create_product repr oid2 (rocq_product float_zero) (Some "garbage") w2)
    = Raise (HTTPException 401 "Unauthorized")
  ∧ fst (create_course repr oid2 (rocq_course float_zero) (Some alice_token) w2)
    = Ok (Some rocq_course_out)
  ∧ coll w3 "course" = [<["_id" := VOid oid2]> (Course.model_dump (rocq_course float_zero))]
  ∧ fst (create_product repr oid2 (rocq_product float_zero) (Some alice_token) w2)
    = Ok (Some rocq_product_out).
Proof.
  destruct (create_requires_token repr oid2 (rocq_course float_zero)
              (rocq_product float_zero) None w2) as [Ha _].
  destruct (create_requires_token repr oid2 (rocq_course float_zero)
              (rocq_product float_zero) (Some "garbage") w2) as [Hb _].
  destruct (create_requires_token repr oid2 (rocq_course float_zero)
              (rocq_product float_zero) (Some alice_token) w2) as [_ Hc].
  destruct Ha as (Ha & _); [compute_done|].
  destruct Hb as (_ & _ & Hb & _); [compute_done|].
  destruct (Hc alice_token) as [Hc1 Hc2]; [compute_done..|].
  destruct Hc1 as [Hc1 Hdb]; [compute_done|].
  destruct Hc2 as [Hc2 _]; [compute_done|].
  split_and!; [exact Ha|exact Hb|exact Hc1| |exact Hc2].
  unfold w3, coll. by rewrite Hdb, lookup_insert_eq.
Defined.

Lemma login_frame_witness :
  ∃ i (u u' : pydict),
    coll w1 "user" !! i = Some u
    ∧ u !! "email" = Some (VStr "alice@example.com")
    ∧ coll w2 "user" !! i = Some u'
    ∧ u' = <["api_token" := VStr alice_token]> u
    ∧ u' !! "name" = u !! "name"
    ∧ u' !! "email" = u !! "email"
    ∧ u' !! "password_hash" = u !! "password_hash"
    ∧ (∀ k, k ≠ "api_token" → u' !! k = u !! k)
    ∧ length (coll w2 "user") = length (coll w1 "user")
    ∧ (∀ j, j ≠ i → coll w2 "user" !! j = coll w1 "user" !! j)
    ∧ (∀ c, c ≠ "user" → db w2 !! c = db w1 !! c).
Proof.
  apply (login_frame repr alice_login alice_out w1 w2); compute_done.
Defined.

Lemma returned_documents_carry_id_witness :
  (∃ rs w', list_courses repr 50 w3 = (Ok rs, w')
            ∧ Forall (carries_id repr (coll w3 "course")) rs)
  ∧ carries_id repr (coll w3 "course") (Some rocq_course_out)
  ∧ carries_id repr (coll w3 "course") (Some rocq_course_out).
Proof.
  destruct (returned_documents_carry_id repr oid2 (rocq_course float_zero)
              (rocq_product float_zero) (Some alice_token) 50
              "654abc019f00000000000002" w3) as (Hl & _ & Hg & _).
  destruct (returned_documents_carry_id repr oid2 (rocq_course float_zero)
              (rocq_product float_zero) (Some alice_token) 50
              "654abc019f00000000000002" w2) as (_ & _ & _ & _ & Hc & _).
  split_and!.
  - apply Hl. compute_done.
  - apply (Hg (Some rocq_course_out)
             (log (Call_find_one "course" [("_id", VOid oid2)]) w3)).
    compute_done.
  - apply (Hc (Some rocq_course_out) w3). compute_done.
Defined.

(** A string with whitespace between its digit pairs is not a well-formed
    identifier, yet [ObjectId] accepts it and the answer is 404. *)
Lemma malformed_id_is_invalid_counterexample :
  ¬ well_formed_id spaced_id
  ∧ get_course repr spaced_id w3
    = (Raise (HTTPException 404 "Course not found"),
       log (Call_find_one "course" [("_id", VOid oid_spaced)]) w3)
  ∧ get_product repr spaced_id w3
    = (Raise (HTTPException 404 "Product not found"),
       log (Call_find_one "product" [("_id", VOid oid_spaced)]) w3)
  ∧ ¬ malformed_id_is_invalid repr w3 spaced_id.
Proof.
  split_and!; [compute_done..|].
  intros H. destruct H as [H _]; [compute_done|].
  assert (fst (get_course repr spaced_id w3)
          = Raise (HTTPException 404 "Course not found")) as H' by compute_done.
  rewrite H in H'. discriminate.
Qed.

Lemma get_by_id_witness :
  get_course repr "not-an-id" w3 = (Raise (HTTPException 400 "Invalid id"), w3)
  ∧ accepted_id "000000000000000000000000"
  ∧ fst (get_course repr "000000000000000000000000" w3)
    = Raise (HTTPException 404 "Course not found")
  ∧ fst (get_course repr spaced_id w3)
    = Raise (HTTPException 404 "Course not found")
  ∧ fst (get_course repr "654ABC019F00000000000002" w3) = Ok (Some rocq_course_out).
Proof.
  split_and!.
  - apply (get_by_id repr "not-an-id" w3).
    apply ObjectId_of_str_None. compute_done.
  - apply (get_by_id repr "000000000000000000000000" w3). compute_done.
  - destruct (proj2 (proj2 (get_by_id repr "000000000000000000000000" w3)))
      as (oid & Hoid & H404 & _).
    { apply ObjectId_of_str_is_Some. compute_done. }
    apply H404. vm_compute in Hoid. injection Hoid as <-. compute_done.
  - destruct (proj2 (proj2 (get_by_id repr spaced_id w3)))
      as (oid & Hoid & H404 & _).
    { apply ObjectId_of_str_is_Some. compute_done. }
    apply H404. vm_compute in Hoid. injection Hoid as <-. compute_done.
  - destruct (proj2 (proj2 (get_by_id repr "654ABC019F00000000000002" w3)))
      as (oid & Hoid & _ & _ & Hok & _).
    { apply ObjectId_of_str_is_Some. compute_done. }
    vm_compute in Hoid. injection Hoid as <-.
    rewrite (Hok (<["_id" := VOid oid2]> (Course.model_dump (rocq_course float_zero))));
      [ compute_done | compute_done | compute_done | compute_done ].
Defined.

Lemma register_once_witness :
  fst (register repr oid2 alice (snd (register repr oid1 alice w0)))
  = Raise (HTTPException 400 "Email already registered").
Proof.
  apply (register_once repr oid1 oid2 alice alice w0); compute_done.
Defined.

Lemma handlers_keep_users_ok_witness :
  users_ok repr (coll (snd (register repr oid2 alice w1)) "user")
  ∧ users_ok repr (coll w2 "user").
Proof.
  destruct (handlers_keep_users_ok repr w1) as [Hr Hl]; [compute_done|].
  split; [apply (Hr oid2 alice)|apply (Hl alice_login)].
Defined.

End Witnesses.

(** ** Further properties of the handlers *)

Section Coverage.

Variable py_repr : value -> string.

#[local] Abbreviation issue_token := (issue_token py_repr).

(** *** What the reading handlers leave alone *)

Lemma serialize_world doc w : snd (serialize py_repr doc w) = w.
Proof.
  unfold serialize. destruct doc as [d|]; [|done].
  case_bool_decide; [done|].
  unfold bind, getitem. by destruct (d !! "_id").
Qed.

Lemma mapM_serialize_world (docs : list pydict) w :
  snd (mapM (fun d => serialize py_repr (Some d)) docs w) = w.
Proof.
  revert w. induction docs as [|d docs IH]; intros w; [done|].
  cbn [mapM]. unfold bind at 1.
  pose proof (serialize_world (Some d) w) as Hs.
  destruct (serialize py_repr (Some d) w) as [[r|e] w1]; simpl in Hs; subst w1;
    [|done].
  unfold bind. specialize (IH w).
  by destruct (mapM _ docs w) as [[rs|e] w2]; simpl in IH; subst w2.
Qed.

Lemma me_db x_token w : db (snd (me py_repr x_token w)) = db w.
Proof.
  destruct x_token as [tok|]; [|done].
  destruct (decide (tok = "")) as [->|Hne]; [done|].
  rewrite (me_run py_repr tok w Hne). cbn zeta. by repeat case_match.
Qed.

Lemma get_entity_db c detail s w :
  db (snd (get_entity py_repr c detail s w)) = db w.
Proof.
  unfold get_entity, bind, to_object_id.
  destruct (ObjectId_of_str s) as [oid|]; [|done].
  unfold ret, find_one. cbn beta iota zeta.
  destruct (not_doc _); [done|]. by rewrite serialize_world.
Qed.

Lemma list_entities_db c limit w :
  db (snd (list_entities py_repr c limit w)) = db w.
Proof.
  unfold list_entities, bind, get_documents. by rewrite mapM_serialize_world.
Qed.

(** X3: [me], [get_course], [get_product], [list_courses] and
    [list_products] never write: whatever the request and whatever they
    return or raise, every collection is as it was. *)
Theorem reading_handlers_leave_store (x_token : option string) (s : string)
    (limit : Z) (w : world) :
  db (snd (me py_repr x_token w)) = db w
  ∧ db (snd (get_course py_repr s w)) = db w
  ∧ db (snd (get_product py_repr s w)) = db w
  ∧ db (snd (list_courses py_repr limit w)) = db w
  ∧ db (snd (list_products py_repr limit w)) = db w.
Proof.
  split_and!.
  - apply me_db.
  - apply (get_entity_db "course").
  - apply (get_entity_db "product").
  - apply (list_entities_db "course").
  - apply (list_entities_db "product").
Qed.

(** *** What the writing handlers write *)

(** X4: a [register] that raises writes nothing, and one that returns
    appends exactly one document, the new user's, to the user collection
    and touches no other document or collection. *)
Theorem register_footprint (gen : ObjectId) (payload : RegisterRequest.t)
    (w : world) :
  match fst (register py_repr gen payload w) with
  | Ok _ =>
      db (snd (register py_repr gen payload w))
      = <["user" := (coll w "user" ++ [user_doc gen payload])%list]> (db w)
  | Raise _ => db (snd (register py_repr gen payload w)) = db w
  end.
Proof.
  unfold register, bind, find_one.
  destruct (not_doc (first_match _ (coll w "user"))); [|done].
  cbn [negb]. unfold insert_one.
  assert (({[ "name" := VStr (RegisterRequest.name payload);
              "email" := VStr (RegisterRequest.email payload);
              "password_hash" :=
                VStr (hash_password (RegisterRequest.password payload)) ]}
           : pydict) !! "_id" = None) as -> by by simplify_map_eq.
  cbn [from_option id]. rewrite coll_log. by case_decide.
Qed.

(** X5: [login] never adds or removes a document and never touches a
    collection other than the users': either every collection is as it
    was, or one user document got its [api_token] set to the digest of
    its own [_id]; and a [login] answered with an HTTP error wrote
    nothing. *)
Theorem login_footprint (payload : LoginRequest.t) (w : world) :
  (db (snd (login py_repr payload w)) = db w
   ∨ ∃ j (x : pydict) v,
       coll w "user" !! j = Some x ∧ x !! "_id" = Some v
       ∧ db (snd (login py_repr payload w))
         = <["user" := <[j := <["api_token" := VStr (issue_token v)]> x]>
                         (coll w "user")]> (db w))
  ∧ match fst (login py_repr payload w) with
    | Raise (HTTPException _ _) => db (snd (login py_repr payload w)) = db w
    | _ => True
    end.
Proof.
  rewrite login_run. cbn zeta.
  destruct (first_match _ (coll w "user")) as [u|] eqn:Hu; [|by split; [left|]].
  case_bool_decide; [|by split; [left|]].
  destruct (u !! "_id") as [v|] eqn:Hv; [|by split; [left|]].
  apply first_match_elem_of in Hu as [Hin _].
  destruct (update_token_world v (issue_token v)
              (log (Call_find_one "user"
                      [("email", VStr (LoginRequest.email payload))]) w) u)
    as (j & x & Hj & Hxv & _ & Hw); [done..|].
  rewrite coll_log in Hj, Hw.
  assert (db (snd (update_one "user" [("_id", v)]
                     [("api_token", VStr (issue_token v))]
                     (log (Call_find_one "user"
                             [("email", VStr (LoginRequest.email payload))]) w)))
          = <["user" := <[j := <["api_token" := VStr (issue_token v)]> x]>
                          (coll w "user")]> (db w)) as Hdb by by rewrite Hw.
  split; [|by destruct (u !! "name")].
  right. exists j, x, v. by destruct (u !! "name").
Qed.

(** X6: when the user document found by the email has no [name], [login]
    has already stored the token when building the response raises
    [KeyError]: the request fails and the token stays written. *)
Theorem login_without_name_writes_token (payload : LoginRequest.t) (w : world)
    (u : pydict) (v : value) :
  first_match [("email", VStr (LoginRequest.email payload))] (coll w "user") = Some u →
  u !! "password_hash" = Some (VStr (hash_password (LoginRequest.password payload))) →
  u !! "_id" = Some v →
  u !! "name" = None →
  fst (login py_repr payload w) = Raise (KeyError "name")
  ∧ Exists (fun d : pydict => d !! "api_token" = Some (VStr (issue_token v)))
           (coll (snd (login py_repr payload w)) "user").
Proof.
  intros Hu Hh Hv Hn. rewrite login_run. cbn zeta.
  rewrite Hu, bool_decide_eq_true_2, Hv, Hn by done. split; [done|].
  apply first_match_elem_of in Hu as [Hin _]. cbn [snd].
  destruct (update_token_world v (issue_token v)
              (log (Call_find_one "user"
                      [("email", VStr (LoginRequest.email payload))]) w) u)
    as (j & x & Hj & Hxv & _ & Hw); [done..|].
  rewrite coll_log in Hj, Hw. rewrite Hw, coll_set_coll_eq.
  apply Exists_exists. exists (<["api_token" := VStr (issue_token v)]> x). split.
  - eapply list_elem_of_lookup_2. apply list_lookup_insert_eq.
    by eapply lookup_lt_Some.
  - by rewrite lookup_insert_eq.
Qed.

Lemma ObjectId_of_str_str_cases (oid : ObjectId) :
  ObjectId_of_str (ObjectId_str oid)
  = if bool_decide (length oid = 12%nat) then Some oid else None.
Proof.
  case_bool_decide as Hlen; [by apply ObjectId_of_str_str|].
  unfold ObjectId_of_str, ObjectId_str.
  rewrite length_of_bytes, bool_decide_eq_false_2; [done|lia].
Qed.

(** The run of a creation handler, case by case. *)
Lemma create_entity_run c gen (data : pydict) x_token w :
  data !! "_id" = None →
  let tok := default "" x_token in
  let w1 := log (Call_find_one "user" [("api_token", VStr tok)]) w in
  let w2 := log (Call_insert_one c data) w1 in
  let w3 := set_coll c (coll w c ++ [stored_doc gen data]) w2 in
  create_entity py_repr c gen data x_token w =
  if not_str x_token then (Raise (HTTPException 401 "Unauthorized"), w)
  else if not_doc (first_match [("api_token", VStr tok)] (coll w "user"))
  then (Raise (HTTPException 401 "Unauthorized"), w1)
  else if decide (Exists (fun d : pydict => d !! "_id" = Some (VOid gen)) (coll w c))
  then (Raise DuplicateKeyError, w2)
  else if bool_decide (length gen = 12%nat)
  then (Ok (Some (<["id" := VStr (ObjectId_str gen)]> data)),
        log (Call_find_one c [("_id", VOid gen)]) w3)
  else (Raise InvalidId, w3).
Proof.
  intros Hdata tok w1 w2 w3. unfold create_entity, bind, or_.
  destruct (not_str x_token); [done|].
  unfold find_one at 1. unfold ret at 1. fold tok w1.
  destruct (not_doc (first_match _ (coll w "user"))); [done|].
  unfold create_document, bind, insert_one. rewrite Hdata. cbn [from_option id].
  change (coll w1 c) with (coll w c). fold w2. case_decide as Hdup; [done|].
  unfold ret at 1. cbn [py_str]. fold (stored_doc gen data). fold w3.
  unfold ObjectId_new. rewrite ObjectId_of_str_str_cases.
  case_bool_decide; [|done].
  unfold ret at 1, find_one. unfold w3 at 1. rewrite coll_set_coll_eq.
  rewrite (first_match_snoc_fresh (VOid gen));
    [| |by unfold stored_doc; rewrite lookup_insert_eq].
  2:{ apply Forall_forall. intros d Hd Hid. apply Hdup, Exists_exists. eauto. }
  rewrite (serialize_Some py_repr _ (VOid gen))
    by by unfold stored_doc; rewrite lookup_insert_eq.
  unfold stored_doc. by rewrite (delete_insert_id _ _ _ Hdata).
Qed.

(** X7: for a twelve-byte generated identifier, a creation that raises
    (no or unknown token, or an identifier already stored) writes
    nothing, and one that returns appends exactly one document, the
    model's fields under the generated [_id], to its own collection and
    touches no other collection. *)
Theorem create_footprint (gen : ObjectId) (course : Course.t)
    (product : Product.t) (x_token : option string) (w : world) :
  length gen = 12%nat →
  match fst (create_course py_repr gen course x_token w) with
  | Ok _ =>
      db (snd (create_course py_repr gen course x_token w))
      = <["course" := (coll w "course"
            ++ [stored_doc gen (Course.model_dump course)])%list]> (db w)
  | Raise _ => db (snd (create_course py_repr gen course x_token w)) = db w
  end
  ∧ match fst (create_product py_repr gen product x_token w) with
    | Ok _ =>
        db (snd (create_product py_repr gen product x_token w))
        = <["product" := (coll w "product"
              ++ [stored_doc gen (Product.model_dump product)])%list]> (db w)
    | Raise _ => db (snd (create_product py_repr gen product x_token w)) = db w
    end.
Proof.
  intros Hlen. split.
  - change (create_course py_repr gen course x_token w)
      with (create_entity py_repr "course" gen (Course.model_dump course) x_token w).
    rewrite create_entity_run by apply Course_model_dump_no_id. cbn zeta.
    rewrite (bool_decide_eq_true_2 _ Hlen). by repeat case_match.
  - change (create_product py_repr gen product x_token w)
      with (create_entity py_repr "product" gen (Product.model_dump product) x_token w).
    rewrite create_entity_run by apply Product_model_dump_no_id. cbn zeta.
    rewrite (bool_decide_eq_true_2 _ Hlen). by repeat case_match.
Qed.

(** *** How the handlers compose *)

Lemma create_then_get_entity c detail gen (data : pydict) x_token r w w' :
  data !! "_id" = None →
  create_entity py_repr c gen data x_token w = (Ok r, w') →
  get_entity py_repr c detail (ObjectId_str gen) w'
  = (Ok r, log (Call_find_one c [("_id", VOid gen)]) w').
Proof.
  intros Hdata. rewrite create_entity_run by done. cbn zeta.
  destruct (not_str x_token); [done|].
  destruct (not_doc _); [done|].
  case_decide as Hdup; [done|].
  case_bool_decide as Hlen; [|done].
  intros [= <- <-].
  unfold get_entity, bind, to_object_id.
  rewrite (ObjectId_of_str_str gen Hlen).
  unfold ret at 1, find_one. rewrite coll_log, coll_set_coll_eq.
  rewrite (first_match_snoc_fresh (VOid gen));
    [| |by unfold stored_doc; rewrite lookup_insert_eq].
  2:{ apply Forall_forall. intros d Hd Hid. apply Hdup, Exists_exists.
      eauto. }
  cbn [not_doc]. rewrite bool_decide_eq_false_2; last first.
  { intros He. assert (stored_doc gen data !! "_id" = Some (VOid gen)) as Hs
      by (unfold stored_doc; by rewrite lookup_insert_eq).
    rewrite He in Hs. by rewrite lookup_empty in Hs. }
  rewrite (serialize_Some py_repr _ (VOid gen))
    by by unfold stored_doc; rewrite lookup_insert_eq.
  unfold stored_doc. by rewrite (delete_insert_id _ _ _ Hdata).
Qed.

(** X8: reading back what was created: when [create_course] (or
    [create_product]) returns a document, [get_course] (or
    [get_product]) on the printed form of its generated identifier, on
    the store the creation left, returns that same document. *)
Theorem create_then_get (gen : ObjectId) (course : Course.t) (product : Product.t)
    (x_token : option string) (w : world) :
  (∀ r w', create_course py_repr gen course x_token w = (Ok r, w') →
     get_course py_repr (ObjectId_str gen) w'
     = (Ok r, log (Call_find_one "course" [("_id", VOid gen)]) w'))
  ∧ (∀ r w', create_product py_repr gen product x_token w = (Ok r, w') →
     get_product py_repr (ObjectId_str gen) w'
     = (Ok r, log (Call_find_one "product" [("_id", VOid gen)]) w')).
Proof.
  split; intros r w'.
  - apply (create_then_get_entity "course"), Course_model_dump_no_id.
  - apply (create_then_get_entity "product"), Product_model_dump_no_id.
Qed.

Lemma login_token_known payload out w w1 :
  login py_repr payload w = (Ok out, w1) → token_known (token out) w1.
Proof.
  intros (i & u & v & n & Hi & _ & _ & _ & Hv & _ & -> & ->)%login_Ok.
  cbn [token]. split; [apply issue_token_nonempty|].
  assert (u ∈ coll w "user") as Hin by by eapply list_elem_of_lookup_2.
  destruct (update_token_world v (issue_token v)
              (log (Call_find_one "user"
                      [("email", VStr (LoginRequest.email payload))]) w) u)
    as (j & x & Hj & _ & _ & Hw); [done..|].
  rewrite coll_log in Hj, Hw. rewrite Hw, coll_set_coll_eq.
  apply Exists_exists. exists (<["api_token" := VStr (issue_token v)]> x). split.
  - eapply list_elem_of_lookup_2. apply list_lookup_insert_eq.
    by eapply lookup_lt_Some.
  - by rewrite lookup_insert_eq.
Qed.

(** X9: the token a successful [login] returns passes the gate of the
    creation handlers: on the store the login left, [create_course] and
    [create_product] with that token and a fresh generated identifier
    return the created document. *)
Theorem login_token_authorizes_create (payload : LoginRequest.t) (out : LoginOut)
    (gen : ObjectId) (course : Course.t) (product : Product.t) (w w1 : world) :
  login py_repr payload w = (Ok out, w1) →
  (fresh_id gen (coll w1 "course") →
     fst (create_course py_repr gen course (Some (token out)) w1)
     = Ok (Some (<["id" := VStr (ObjectId_str gen)]> (Course.model_dump course))))
  ∧ (fresh_id gen (coll w1 "product") →
     fst (create_product py_repr gen product (Some (token out)) w1)
     = Ok (Some (<["id" := VStr (ObjectId_str gen)]> (Product.model_dump product)))).
Proof.
  intros Hk%login_token_known. split; intros Hf.
  - change (create_course py_repr gen course (Some (token out)) w1)
      with (create_entity py_repr "course" gen (Course.model_dump course)
              (Some (token out)) w1).
    by rewrite (create_entity_ok py_repr _ _ _ _ _ Hk Hf (Course_model_dump_no_id _)).
  - change (create_product py_repr gen product (Some (token out)) w1)
      with (create_entity py_repr "product" gen (Product.model_dump product)
              (Some (token out)) w1).
    by rewrite (create_entity_ok py_repr _ _ _ _ _ Hk Hf (Product_model_dump_no_id _)).
Qed.

Lemma first_match_snoc k v (l : list pydict) (d : pydict) :
  Forall (fun x : pydict => x !! k ≠ Some v) l →
  first_match [(k, v)] (l ++ [d])
  = if decide (d !! k = Some v) then Some d else None.
Proof.
  intros Hl. case_decide as Hd.
  - apply first_match_Some. exists (length l). split_and!.
    + by rewrite lookup_app_r, Nat.sub_diag.
    + by apply matches_one.
    + intros j y Hj Hlt Hm%matches_one.
      rewrite lookup_app_l in Hj by done.
      by eapply Forall_lookup_1 in Hl.
  - apply first_match_one_None. intros x [Hx|Hx%list_elem_of_singleton]%elem_of_app.
    + by apply (proj1 (Forall_forall _ _) Hl).
    + by subst x.
Qed.


Lemma register_coll gen payload w :
  coll (snd (register py_repr gen payload w)) "user" = coll w "user"
  ∨ coll (snd (register py_repr gen payload w)) "user"
    = (coll w "user" ++ [user_doc gen payload])%list.
Proof.
  unfold register, bind, find_one.
  destruct (not_doc (first_match _ (coll w "user"))); [|by left].
  cbn [negb]. unfold insert_one.
  assert (({[ "name" := VStr (RegisterRequest.name payload);
              "email" := VStr (RegisterRequest.email payload);
              "password_hash" :=
                VStr (hash_password (RegisterRequest.password payload)) ]}
           : pydict) !! "_id" = None) as -> by by simplify_map_eq.
  cbn [from_option id]. rewrite coll_log. case_decide; [by left|].
  right. cbn [snd ret]. by rewrite coll_set_coll_eq.
Qed.

Lemma first_match_snoc_other k v (l : list pydict) (d : pydict) :
  d !! k ≠ Some v → first_match [(k, v)] (l ++ [d]) = first_match [(k, v)] l.
Proof.
  intros Hd. destruct (first_match [(k, v)] l) as [x|] eqn:E.
  - apply first_match_Some in E as (i & Hi & Hm & Hleast).
    apply first_match_Some. exists i. split_and!; [|done|].
    + by apply lookup_app_l_Some.
    + intros j y Hj Hlt. apply (Hleast j y); [|done].
      rewrite lookup_app_l in Hj; [done|].
      apply lookup_lt_Some in Hi. lia.
  - rewrite first_match_snoc, decide_False; [done..|].
    apply Forall_forall. by apply first_match_one_None.
Qed.

(** X11: [register] issues no credential: whatever the token, [me]
    answers on the store a [register] left exactly as it answered
    before (the new document carries no [api_token]). *)
Theorem register_issues_no_token (gen : ObjectId) (payload : RegisterRequest.t)
    (x_token : option string) (w : world) :
  fst (me py_repr x_token (snd (register py_repr gen payload w)))
  = fst (me py_repr x_token w).
Proof.
  destruct x_token as [tok|]; [|done].
  destruct (decide (tok = "")) as [->|Hne]; [done|].
  rewrite !(me_run py_repr tok _ Hne). cbn zeta.
  assert (first_match [("api_token", VStr tok)]
            (coll (snd (register py_repr gen payload w)) "user")
          = first_match [("api_token", VStr tok)] (coll w "user")) as ->.
  { destruct (register_coll gen payload w) as [->| ->]; [done|].
    apply first_match_snoc_other. unfold user_doc. by simplify_map_eq. }
  by repeat case_match.
Qed.

(** *** Edge cases of the helpers *)

(** X12: [serialize] on its four kinds of input: [None] and the empty
    [dict] come back as they are (no ["id"] is added); a [dict] that is
    not empty and has no ["_id"] raises [KeyError]; otherwise ["_id"] is
    removed, its printed form is stored under ["id"] (replacing an ["id"]
    the document had), and every other field is kept.  The store is
    never touched. *)
Theorem serialize_cases (d : pydict) (w : world) :
  serialize py_repr None w = (Ok None, w)
  ∧ serialize py_repr (Some ∅) w = (Ok (Some ∅), w)
  ∧ (d ≠ ∅ → d !! "_id" = None →
     serialize py_repr (Some d) w = (Raise (KeyError "_id"), w))
  ∧ (∀ v, d !! "_id" = Some v →
     ∃ d' : pydict,
       serialize py_repr (Some d) w = (Ok (Some d'), w)
       ∧ d' !! "id" = Some (VStr (py_str py_repr v))
       ∧ d' !! "_id" = None
       ∧ ∀ k, k ≠ "id" → k ≠ "_id" → d' !! k = d !! k).
Proof.
  split_and!; [done|done| |].
  - intros Hne Hid. unfold serialize. rewrite bool_decide_eq_false_2 by done.
    unfold bind, getitem. by rewrite Hid.
  - intros v Hv. eexists. split; [by apply serialize_Some|].
    split_and!.
    + by rewrite lookup_insert_eq.
    + by rewrite lookup_insert_ne, lookup_delete_eq.
    + intros k Hk Hk'. by rewrite lookup_insert_ne, lookup_delete_ne.
Qed.

(** X13: [to_object_id] undoes [str] on identifiers: the printed form of
    a twelve-byte identifier is parsed back to it; a string whose length
    is not 24 raises 400 "Invalid id"; and the store is never touched. *)
Theorem to_object_id_round_trip (oid : ObjectId) (s : string) (w : world) :
  (length oid = 12%nat → to_object_id (ObjectId_str oid) w = (Ok oid, w))
  ∧ (String.length s ≠ 24%nat →
     to_object_id s w = (Raise (HTTPException 400 "Invalid id"), w))
  ∧ snd (to_object_id s w) = w.
Proof.
  split_and!.
  - intros Hlen. unfold to_object_id. by rewrite ObjectId_of_str_str.
  - intros Hlen. unfold to_object_id, ObjectId_of_str.
    by rewrite bool_decide_eq_false_2.
  - unfold to_object_id. by destruct (ObjectId_of_str s).
Qed.




(** *** Contact *)

Lemma ContactMessage_model_dump_no_id msg :
  ContactMessage.model_dump msg !! "_id" = None.
Proof. unfold ContactMessage.model_dump. by simplify_map_eq. Qed.

(** The run of [send_contact], case by case. *)
Lemma send_contact_run gen msg w :
  let data := ContactMessage.model_dump msg in
  let w1 := log (Call_insert_one "contactmessage" data) w in
  send_contact py_repr gen msg w =
  if decide (Exists (fun d : pydict => d !! "_id" = Some (VOid gen))
               (coll w "contactmessage"))
  then (Raise DuplicateKeyError, w1)
  else (Ok {[ "status" := VStr "received"; "id" := VStr (ObjectId_str gen) ]},
        set_coll "contactmessage"
          (coll w "contactmessage" ++ [stored_doc gen data]) w1).
Proof.
  intros data w1. unfold send_contact, create_document, bind, insert_one.
  fold data. rewrite (ContactMessage_model_dump_no_id msg : data !! "_id" = None).
  cbn [from_option id]. by case_decide.
Qed.

(** X15: [send_contact] asks for no token: unless the generated
    identifier is already stored, it appends the message, under that
    identifier, to the contact messages, leaves every other collection as
    it was and answers [{status: received, id}] with the identifier
    printed. *)
Theorem send_contact_spec (gen : ObjectId) (msg : ContactMessage.t) (w : world) :
  match fst (send_contact py_repr gen msg w) with
  | Ok r =>
      r = {[ "status" := VStr "received"; "id" := VStr (ObjectId_str gen) ]}
      ∧ db (snd (send_contact py_repr gen msg w))
        = <["contactmessage" := (coll w "contactmessage"
              ++ [stored_doc gen (ContactMessage.model_dump msg)])%list]> (db w)
  | Raise e =>
      e = DuplicateKeyError
      ∧ Exists (fun d : pydict => d !! "_id" = Some (VOid gen))
               (coll w "contactmessage")
      ∧ db (snd (send_contact py_repr gen msg w)) = db w
  end.
Proof.
  rewrite send_contact_run. cbn zeta. by case_decide.
Qed.

Lemma ObjectId_str_inj (a b : ObjectId) : ObjectId_str a = ObjectId_str b → a = b.
Proof.
  unfold ObjectId_str. intros H.
  pose proof (to_bytes_of_bytes a) as Ha. rewrite H, to_bytes_of_bytes in Ha.
  congruence.
Qed.

(** X16: two contact messages sent one after the other, both accepted,
    never get the same ["id"]. *)
Theorem send_contact_ids_differ (gen1 gen2 : ObjectId)
    (msg1 msg2 : ContactMessage.t) (r1 r2 : pydict) (w w1 w2 : world) :
  send_contact py_repr gen1 msg1 w = (Ok r1, w1) →
  send_contact py_repr gen2 msg2 w1 = (Ok r2, w2) →
  r1 !! "id" ≠ r2 !! "id".
Proof.
  rewrite !send_contact_run. cbn zeta.
  case_decide as H1; [done|]. intros [= <- <-].
  case_decide as H2; [done|]. intros [= <- _].
  rewrite coll_set_coll_eq in H2.
  simplify_map_eq. intros [= Heq%ObjectId_str_inj]. subst gen2.
  apply H2, Exists_app. right. apply Exists_cons_hd.
  unfold stored_doc. by rewrite lookup_insert_eq.
Qed.

(** *** What the auth handlers give out and keep *)

(** X17: what [me] returns, and the [user] part of what [login] returns,
    has exactly the keys ["id"], ["name"] and ["email"]: never the
    [password_hash] or the [api_token] of the document. *)
Theorem auth_responses_are_public (x_token : option string)
    (payload : LoginRequest.t) (w : world) :
  (∀ (r : pydict) w', me py_repr x_token w = (Ok r, w') →
     dom r = {[ "id"; "name"; "email" ]}
     ∧ r !! "password_hash" = None ∧ r !! "api_token" = None)
  ∧ (∀ out w', login py_repr payload w = (Ok out, w') →
     dom (user out) = {[ "id"; "name"; "email" ]}
     ∧ user out !! "password_hash" = None ∧ user out !! "api_token" = None).
Proof.
  split.
  - intros r w'. destruct x_token as [tok|]; [|done].
    destruct (decide (tok = "")) as [->|Hne]; [done|].
    rewrite (me_run py_repr tok w Hne). cbn zeta.
    repeat case_match; try done. intros [= <- _]. split_and!.
    + rewrite !dom_insert_L, dom_singleton_L. set_solver.
    + by simplify_map_eq.
    + by simplify_map_eq.
  - intros out w' (i & u & v & n & _ & _ & _ & _ & _ & _ & -> & _)%login_Ok.
    cbn [user]. split_and!.
    + rewrite !dom_insert_L, dom_singleton_L. set_solver.
    + by simplify_map_eq.
    + by simplify_map_eq.
Qed.

(** X18: logging in again changes nothing: when [_id] is unique among
    the user documents, a second [login] with the same request, after a
    successful first one, leaves every collection exactly as the first
    login left it. *)
Theorem login_again_same_store (payload : LoginRequest.t) (out : LoginOut)
    (w w1 : world) :
  unique_on "_id" (coll w "user") →
  login py_repr payload w = (Ok out, w1) →
  db (snd (login py_repr payload w1)) = db w1.
Proof.
  intros Hu (i & u & v & n & Hi & Hleast & He & Hh & Hv & Hn & _ & Hw1)%login_Ok.
  set (e := LoginRequest.email payload) in *.
  set (T := issue_token v) in *.
  unfold update_one in Hw1. rewrite coll_log in Hw1.
  rewrite (list_find_unique "_id" v _ i u Hu Hi Hv) in Hw1.
  cbn [snd apply_set fold_left fst] in Hw1.
  set (u' := <["api_token" := VStr T]> u) in *.
  assert (coll w1 "user" = <[i := u']> (coll w "user")) as Hc
    by (rewrite Hw1; apply coll_set_coll_eq).
  assert (db w1 !! "user" = Some (coll w1 "user")) as Hdb.
  { rewrite Hc, Hw1. unfold set_coll. cbn [db]. by rewrite lookup_insert_eq. }
  clear Hw1.
  assert (i < length (coll w "user"))%nat as Hlt by by eapply lookup_lt_Some.
  assert (coll w1 "user" !! i = Some u') as Hi1
    by by rewrite Hc, list_lookup_insert_eq.
  assert (unique_on "_id" (coll w1 "user")) as Hu1.
  { rewrite Hc. by apply unique_on_token_update. }
  assert (first_match [("email", VStr e)] (coll w "user") = Some u) as Hfm.
  { apply first_match_Some. exists i. split_and!; [done|by apply matches_one|].
    intros j' y Hy Hlt' Hm%matches_one. by eapply Hleast. }
  pose proof (first_match_token_update "email" (VStr e) _ i u (VStr T)
                ltac:(done) Hi) as Hfm1.
  rewrite Hfm in Hfm1. destruct Hfm1 as (u1 & Hu1' & Hsame).
  fold u' in Hu1'. rewrite <- Hc in Hu1'.
  assert (u1 = u') as ->.
  { apply first_match_Some in Hu1' as (i1 & Hi1' & _).
    assert (i1 = i) as ->; [|congruence].
    eapply (NoDup_lookup _ _ _ (Some v) Hu1); rewrite list_lookup_fmap.
    - by rewrite Hi1'; simpl; rewrite Hsame, Hv.
    - rewrite Hi1. simpl. unfold u'. by rewrite lookup_insert_ne, Hv. }
  rewrite login_run. fold e. cbn zeta. rewrite Hu1'.
  rewrite !Hsame by done. rewrite bool_decide_eq_true_2, Hv, Hn by done.
  fold T. cbn [snd].
  unfold update_one. rewrite coll_log.
  rewrite (list_find_unique "_id" v _ i u' Hu1 Hi1) by by rewrite Hsame.
  cbn [snd apply_set fold_left fst set_coll db log].
  unfold u' at 1. rewrite insert_insert_eq. fold u'.
  rewrite (list_insert_id _ _ _ Hi1).
  by apply insert_id.
Qed.

End Coverage.

(** ** The further properties on the sample store *)

Section CoverageWitnesses.

Import Sample.

Lemma login_without_name_writes_token_witness :
  fst (login repr dave_login w_nameless) = Raise (KeyError "name")
  ∧ Exists (fun d : pydict =>
              d !! "api_token" = Some (VStr (issue_token repr (VOid oid2))))
           (coll (snd (login repr dave_login w_nameless)) "user").
Proof.
  apply (login_without_name_writes_token repr dave_login w_nameless nameless);
    compute_done.
Defined.

Lemma create_footprint_witness :
  db w3 = <["course" := (coll w2 "course"
             ++ [stored_doc oid2 (Course.model_dump (rocq_course float_zero))])%list]>
            (db w2)
  ∧ db (snd (create_product repr oid2 (rocq_product float_zero) None w2)) = db w2.
Proof.
  destruct (create_footprint repr oid2 (rocq_course float_zero)
              (rocq_product float_zero) (Some alice_token) w2) as [Hc _];
    [compute_done|].
  destruct (create_footprint repr oid2 (rocq_course float_zero)
              (rocq_product float_zero) None w2) as [_ Hp];
    [compute_done|].
  split; [exact Hc|exact Hp].
Defined.

Lemma create_then_get_witness :
  get_course repr "654abc019f00000000000002" w3
  = (Ok (Some rocq_course_out),
     log (Call_find_one "course" [("_id", VOid oid2)]) w3).
Proof.
  apply (proj1 (create_then_get repr oid2 (rocq_course float_zero)
                  (rocq_product float_zero) (Some alice_token) w2)
           (Some rocq_course_out) w3).
  compute_done.
Defined.

Lemma login_token_authorizes_create_witness :
  fst (create_course repr oid2 (rocq_course float_zero) (Some alice_token) w2)
    = Ok (Some rocq_course_out)
  ∧ fst (create_product repr oid2 (rocq_product float_zero) (Some alice_token) w2)
    = Ok (Some rocq_product_out).
Proof.
  destruct (login_token_authorizes_create repr alice_login alice_out oid2
              (rocq_course float_zero) (rocq_product float_zero) w1 w2)
    as [Hc Hp]; [compute_done|].
  split; [apply Hc|apply Hp]; compute_done.
Defined.


Lemma serialize_cases_witness :
  serialize repr (Some (Course.model_dump (rocq_course float_zero))) w0
    = (Raise (KeyError "_id"), w0)
  ∧ ∃ d' : pydict,
      serialize repr (Some with_id) w0 = (Ok (Some d'), w0)
      ∧ d' !! "id" = Some (VStr "654abc019f00000000000002")
      ∧ d' !! "_id" = None
      ∧ ∀ k, k ≠ "id" → k ≠ "_id" → d' !! k = with_id !! k.
Proof.
  split.
  - apply (serialize_cases repr (Course.model_dump (rocq_course float_zero)) w0);
      compute_done.
  - apply (proj2 (proj2 (proj2 (serialize_cases repr with_id w0))) (VOid oid2)).
    compute_done.
Defined.

Lemma to_object_id_round_trip_witness :
  to_object_id "654abc019f00000000000002" w0 = (Ok oid2, w0)
  ∧ to_object_id "not-an-id" w0 = (Raise (HTTPException 400 "Invalid id"), w0).
Proof.
  split.
  - apply (to_object_id_round_trip oid2 "not-an-id" w0). compute_done.
  - apply (to_object_id_round_trip oid2 "not-an-id" w0). compute_done.
Defined.


Lemma send_contact_ids_differ_witness :
  fst (send_contact repr oid1 hello w3)
    = Ok {[ "status" := VStr "received"; "id" := VStr "000000000000000000000001" ]}
  ∧ fst (send_contact repr oid2 hello (snd (send_contact repr oid1 hello w3)))
    = Ok {[ "status" := VStr "received"; "id" := VStr "654abc019f00000000000002" ]}
  ∧ ({[ "status" := VStr "received"; "id" := VStr "000000000000000000000001" ]}
       : pydict) !! "id"
    ≠ ({[ "status" := VStr "received"; "id" := VStr "654abc019f00000000000002" ]}
         : pydict) !! "id".
Proof.
  split_and!; [compute_done..|].
  apply (send_contact_ids_differ repr oid1 oid2 hello hello _ _ w3
           (snd (send_contact repr oid1 hello w3))
           (snd (send_contact repr oid2 hello (snd (send_contact repr oid1 hello w3)))));
    compute_done.
Defined.

Lemma auth_responses_are_public_witness :
  (dom (user alice_out) = {[ "id"; "name"; "email" ]}
   ∧ user alice_out !! "password_hash" = None
   ∧ user alice_out !! "api_token" = None)
  ∧ me repr (Some alice_token) w2
    = (Ok (user alice_out),
       log (Call_find_one "user" [("api_token", VStr alice_token)]) w2).
Proof.
  split; [|compute_done].
  apply (proj1 (auth_responses_are_public repr (Some alice_token) alice_login w2)
           (user alice_out)
           (log (Call_find_one "user" [("api_token", VStr alice_token)]) w2)).
  compute_done.
Defined.

Lemma login_again_same_store_witness : db w2' = db w2.
Proof.
  apply (login_again_same_store repr alice_login alice_out w1 w2); compute_done.
Defined.

End CoverageWitnesses.

(** ** The stores the handlers build

    A token passes [me] for its own user when the stored tokens are
    consistent.  That is no assumption on the stores the handlers
    build: the empty store has it, and every handler keeps it. *)

Section Built.

Variable py_repr : value -> string.

#[local] Abbreviation issue_token := (issue_token py_repr).
#[local] Abbreviation issued := (issued py_repr).
#[local] Abbreviation tokens_consistent := (tokens_consistent py_repr).
#[local] Abbreviation digest_new := (digest_new py_repr).
#[local] Abbreviation built := (built py_repr).

Lemma tokens_consistent_nil : tokens_consistent [].
Proof. split; constructor. Qed.

Lemma coll_of_db w w' c : db w' = db w → coll w' c = coll w c.
Proof. unfold coll. by intros ->. Qed.

(** [register] keeps the tokens consistent when the digest of the
    generated identifier is new: the document it appends has no token. *)
Lemma register_keeps_tokens_consistent gen payload w :
  digest_new gen (coll w "user") →
  tokens_consistent (coll w "user") →
  tokens_consistent (coll (snd (register py_repr gen payload w)) "user").
Proof.
  intros Hnew [Htok Hnd].
  destruct (register_coll py_repr gen payload w) as [->| ->]; [done|].
  assert (user_doc gen payload !! "_id" = Some (VOid gen)) as Hid
    by (unfold user_doc; by simplify_map_eq).
  split.
  - apply Forall_app. split; [done|]. apply Forall_singleton. left.
    unfold user_doc. by simplify_map_eq.
  - rewrite fmap_app. apply NoDup_app. split_and!; [done| |apply NoDup_singleton].
    intros t (d & -> & Hd)%list_elem_of_fmap Ht.
    apply list_elem_of_singleton in Ht.
    apply (proj1 (Forall_forall _ _) Hnew d Hd).
    by rewrite Ht, (issued_eq py_repr _ _ Hid).
Qed.

(** A creation handler for a collection other than the users' leaves
    the user collection. *)
Lemma create_entity_keeps_users c gen (data : pydict) x_token w :
  c ≠ "user" → data !! "_id" = None →
  coll (snd (create_entity py_repr c gen data x_token w)) "user" = coll w "user".
Proof.
  intros Hc Hdata. rewrite (create_entity_run py_repr c gen data x_token w Hdata).
  cbn zeta. repeat case_match; cbn [snd];
    rewrite ?coll_log, ?coll_set_coll_ne, ?coll_log; done.
Qed.

Lemma send_contact_keeps_users gen msg w :
  coll (snd (send_contact py_repr gen msg w)) "user" = coll w "user".
Proof.
  rewrite send_contact_run. cbn zeta. case_decide; cbn [snd];
    rewrite ?coll_set_coll_ne, ?coll_log; done.
Qed.

(** Every store the handlers build has consistent tokens. *)
Lemma built_tokens_consistent w : built w → tokens_consistent (coll w "user").
Proof.
  induction 1 as [|gen payload w _ IH Hnew|payload w _ IH|x w _ IH|limit w _ IH
                  |gen course x w _ IH|s w _ IH|limit w _ IH
                  |gen product x w _ IH|s w _ IH|gen msg w _ IH].
  - apply tokens_consistent_nil.
  - by apply register_keeps_tokens_consistent.
  - by apply login_keeps_tokens_consistent.
  - by rewrite (coll_of_db w _ "user" (me_db py_repr x w)).
  - by rewrite (coll_of_db w (snd (list_courses py_repr limit w)) "user"
                  (list_entities_db py_repr "course" limit w)).
  - change (create_course py_repr gen course x w)
      with (create_entity py_repr "course" gen (Course.model_dump course) x w).
    rewrite create_entity_keeps_users; [done..|].
    apply Course_model_dump_no_id.
  - by rewrite (coll_of_db w (snd (get_course py_repr s w)) "user"
                  (get_entity_db py_repr "course" "Course not found" s w)).
  - by rewrite (coll_of_db w (snd (list_products py_repr limit w)) "user"
                  (list_entities_db py_repr "product" limit w)).
  - change (create_product py_repr gen product x w)
      with (create_entity py_repr "product" gen (Product.model_dump product) x w).
    rewrite create_entity_keeps_users; [done..|].
    apply Product_model_dump_no_id.
  - by rewrite (coll_of_db w (snd (get_product py_repr s w)) "user"
                  (get_entity_db py_repr "product" "Product not found" s w)).
  - by rewrite send_contact_keeps_users.
Qed.

(** C4 (as amended): every store the handlers build (from the empty
    store, by any calls, the identifier generated for each registration
    having a digest new to the user collection) has consistent tokens:
    each stored token is the digest of its own document's identifier and
    no two stored identifiers have the same digest.  In a store with
    consistent tokens, the token a successful [login] returns passes
    [me] immediately afterwards, which returns the same
    [{id, name, email}] as [login] did.  In any store, a string that is
    not empty and is no user's stored [api_token] is answered
    401 "Invalid token".  (The empty string is answered "Missing
    token".) *)
Theorem token_authenticates (w : world) :
  (built w → tokens_consistent (coll w "user"))
  ∧ (∀ payload out w',
       tokens_consistent (coll w "user") →
       login py_repr payload w = (Ok out, w') →
       me py_repr (Some (token out)) w'
       = (Ok (user out),
          log (Call_find_one "user" [("api_token", VStr (token out))]) w'))
  ∧ (∀ tok,
       tok ≠ "" →
       Forall (fun d : pydict => d !! "api_token" ≠ Some (VStr tok)) (coll w "user") →
       me py_repr (Some tok) w
       = (Raise (HTTPException 401 "Invalid token"),
          log (Call_find_one "user" [("api_token", VStr tok)]) w)).
Proof.
  split_and!.
  - apply built_tokens_consistent.
  - intros payload out w'. apply login_token_passes_me.
  - intros tok. apply unknown_token_rejected.
Qed.

End Built.

(** ** Tokens on the sample stores *)

Section BuiltWitnesses.

Import Sample.

(** The empty string is no user's token, and [me] answers it "Missing
    token". *)
Lemma unknown_string_invalid_token_counterexample :
  Forall (fun d : pydict => d !! "api_token" ≠ Some (VStr "")) (coll w2 "user")
  ∧ me repr (Some "") w2 = (Raise (HTTPException 401 "Missing token"), w2)
  ∧ ¬ unknown_string_invalid_token repr w2 "".
Proof.
  split_and!; [compute_done..|].
  intros H.
  assert (fst (me repr (Some "") w2) = Raise (HTTPException 401 "Missing token"))
    as Hme by reflexivity.
  rewrite H in Hme; [discriminate|compute_done].
Qed.

(** Why the tokens must be consistent: in a store with unique
    identifiers and emails where Bob's document holds the token issued
    for Alice's identifier, Alice's login succeeds and her token returns
    Bob.  No handler builds such a store. *)
Lemma shared_token_returns_first_holder :
  unique_on "_id" (coll w_shared "user")
  ∧ unique_on "email" (coll w_shared "user")
  ∧ fst (login repr alice_login w_shared) = Ok alice_out
  ∧ fst (me repr (Some (token alice_out)) (snd (login repr alice_login w_shared)))
    = Ok bob_public
  ∧ ¬ tokens_consistent repr (coll w_shared "user")
  ∧ ¬ login_token_returns_user repr alice_login w_shared.
Proof.
  split_and!; [compute_done..|].
  intros H.
  specialize (H alice_out (snd (login repr alice_login w_shared))).
  assert (fst (me repr (Some (token alice_out))
                 (snd (login repr alice_login w_shared))) = Ok bob_public)
    as Hme by compute_done.
  rewrite H in Hme; [|compute_done].
  by compute in Hme.
Qed.

Lemma token_authenticates_witness :
  built repr w1
  ∧ tokens_consistent repr (coll w1 "user")
  ∧ login repr alice_login w1 = (Ok alice_out, w2)
  ∧ me repr (Some alice_token) w2
    = (Ok (user alice_out),
       log (Call_find_one "user" [("api_token", VStr alice_token)]) w2)
  ∧ me repr (Some "garbage") w2
    = (Raise (HTTPException 401 "Invalid token"),
       log (Call_find_one "user" [("api_token", VStr "garbage")]) w2).
Proof.
  assert (built repr w1) as Hb.
  { apply built_register; [apply built_register; [apply built_empty|]|];
      compute_done. }
  pose proof (proj1 (token_authenticates repr w1) Hb) as Hc.
  split_and!.
  - exact Hb.
  - exact Hc.
  - compute_done.
  - apply (proj1 (proj2 (token_authenticates repr w1)) alice_login alice_out w2 Hc).
    compute_done.
  - apply (proj2 (proj2 (token_authenticates repr w2)) "garbage"); compute_done.
Defined.

End BuiltWitnesses.
